(** * RNS Flet App: session and delivery lifecycle layer

    A shallow embedding of the manager classes of [rns_flet_app]
    ([rns.py], [lxmf.py], [lxst.py]) and of the inbound delivery callback
    of [app.py].

    The managers are thin stateful wrappers around the Reticulum, LXMF and
    LXST libraries.  Those libraries are not part of the repository, so every
    call into them goes through a [Runtime] record: a constructor call or a
    function/method call takes the current world, answers with a value or an
    exception and yields the next world.  The managers' own fields are plain
    records that are threaded through a small state / exception / log monad
    [Py].  Every manager function is written once, for every runtime. *)

From Stdlib Require Import Strings.String Strings.Ascii Init.Byte Lists.List ZArith Lia.
From stdpp Require Import base decidable option list strings gmap pretty.

Local Open Scope string_scope.

(** ** Python values *)

Definition bytes := list byte.

#[global] Instance byte_eq_dec : EqDecision byte := Byte.byte_eq_dec.

(** The values that cross the boundary between the managers and the
    libraries.  [VObj n] is a reference to a library object; [n] is what
    [id(obj)] returns.  [VList] is a list (or the values of a dict, in
    order) of library objects.  [VDict] is a dict of message fields (field
    number to payload).  [VName] is a module, class or function object,
    named by its qualified name. *)
Inductive value : Type :=
| VNone
| VBool (b : bool)
| VInt (z : Z)
| VStr (s : string)
| VBytes (b : bytes)
| VObj (n : nat)
| VList (items : list nat)
| VDict (fields : list (Z * bytes))
| VName (qualified : string).

#[global] Instance value_eq_dec : EqDecision value.
Proof. solve_decision. Defined.

(** [bool(v)]: the truth value the interpreter gives [v] in [if v] and
    [not v].  Library objects are always true. *)
Definition truthy (v : value) : bool :=
  match v with
  | VNone => false
  | VBool b => b
  | VInt z => negb (Z.eqb z 0)
  | VStr s => negb (String.eqb s "")
  | VBytes b => negb (Nat.eqb (length b) 0)
  | VObj _ => true
  | VList items => negb (Nat.eqb (length items) 0)
  | VDict fields => negb (Nat.eqb (length fields) 0)
  | VName _ => true
  end.

(** [v is None] *)
Definition is_none (v : value) : bool :=
  match v with VNone => true | _ => false end.

(** [a == b] for the values compared in the sources (address hashes). *)
Definition py_eq (a b : value) : bool := bool_decide (a = b).

(** [id(v)] *)
Definition py_id (v : value) : nat :=
  match v with VObj n => n | _ => 0 end.

(** ** Exceptions *)

(** The classes the sources tell apart: [rns.py] catches
    [(OSError, ValueError)] only, every other handler catches [Exception]. *)
Inductive exn_class : Type :=
| OSError
| ValueError
| TypeError
| AttributeError
| RuntimeError.

#[global] Instance exn_class_eq_dec : EqDecision exn_class.
Proof. solve_decision. Defined.

Record exn : Type := Exn { exn_cls : exn_class; exn_msg : string }.

Inductive outcome (A : Type) : Type :=
| Returns (a : A)
| Raises (e : exn).
Arguments Returns {A} a.
Arguments Raises {A} e.

(** ** Calls into the libraries and what a run leaves behind *)

(** [Ctor cls args kwargs]: the class [cls] called with the positional
    arguments [args] and the keyword arguments [kwargs]. *)
Record ctor : Type := Ctor {
  ctor_cls : string;
  ctor_args : list value;
  ctor_kwargs : list (string * value)
}.

Inductive call : Type :=
| Func (qualified : string) (args : list value) (kwargs : list (string * value))
| Method (recv : value) (name : string) (args : list value) (kwargs : list (string * value))
| SetAttr (recv : value) (name : string) (v : value).

Inductive event : Type :=
| Stdout (line : string)
| Constructed (c : ctor)
| Called (c : call).

(** The interface of the collaborators.  [construct] answers with the
    reference of the new object, [invoke] with the call's return value;
    both may raise.  [getattr] reads a plain attribute: [None] when the
    object has no such attribute. *)
Record Runtime (W : Type) : Type := {
  construct : ctor -> W -> outcome nat * W;
  invoke : call -> W -> outcome value * W;
  getattr : W -> value -> string -> option value;
  utf8_decode : bytes -> option string;
  str_of : value -> string
}.
Arguments construct {W} _ _ _.
Arguments invoke {W} _ _ _.
Arguments getattr {W} _ _ _ _.
Arguments utf8_decode {W} _ _.
Arguments str_of {W} _ _.

(** ** The monad of manager methods *)

Record result (W S A : Type) : Type := Result {
  value_of : outcome A;
  world_of : W;
  self_of : S;
  events_of : list event
}.
Arguments Result {W S A} _ _ _ _.
Arguments value_of {W S A} _.
Arguments world_of {W S A} _.
Arguments self_of {W S A} _.
Arguments events_of {W S A} _.

Definition Py (W S A : Type) : Type := W -> S -> result W S A.

Section Monad.
Context {W S : Type}.

Definition ret {A : Type} (a : A) : Py W S A :=
  fun w s => Result (Returns a) w s [].

Definition raise {A : Type} (e : exn) : Py W S A :=
  fun w s => Result (Raises e) w s [].

(** [r], with [ev] logged before its own events. *)
Definition after {A : Type} (ev : list event) (r : result W S A) : result W S A :=
  match r with
  | Result o w s ev' => Result o w s (ev ++ ev')
  end.

Definition bind {A B : Type} (m : Py W S A) (k : A -> Py W S B) : Py W S B :=
  fun w s =>
    match m w s with
    | Result (Returns a) w1 s1 ev1 => after ev1 (k a w1 s1)
    | Result (Raises e) w1 s1 ev1 => Result (Raises e) w1 s1 ev1
    end.

(** [try: m  except <classes> as e: handler e]; an exception the clause
    does not name goes on to the caller. *)
Definition try_except {A : Type} (m : Py W S A) (catches : exn -> bool)
    (handler : exn -> Py W S A) : Py W S A :=
  fun w s =>
    match m w s with
    | Result (Returns a) w1 s1 ev1 => Result (Returns a) w1 s1 ev1
    | Result (Raises e) w1 s1 ev1 =>
        if catches e then after ev1 (handler e w1 s1)
        else Result (Raises e) w1 s1 ev1
    end.

Definition get_self : Py W S S :=
  fun w s => Result (Returns s) w s [].

Definition put_self (s : S) : Py W S unit :=
  fun w _ => Result (Returns tt) w s [].

Definition print (line : string) : Py W S unit :=
  fun w s => Result (Returns tt) w s [Stdout line].

Definition new (rt : Runtime W) (c : ctor) : Py W S value :=
  fun w s =>
    match construct rt c w with
    | (Returns n, w') => Result (Returns (VObj n)) w' s [Constructed c]
    | (Raises e, w') => Result (Raises e) w' s [Constructed c]
    end.

Definition ext (rt : Runtime W) (c : call) : Py W S value :=
  fun w s =>
    match invoke rt c w with
    | (o, w') => Result o w' s [Called c]
    end.

(** [obj.name]: raises [AttributeError] when the attribute is missing. *)
Definition attr (rt : Runtime W) (obj : value) (name : string) : Py W S value :=
  fun w s =>
    match getattr rt w obj name with
    | Some v => Result (Returns v) w s []
    | None => Result (Raises (Exn AttributeError name)) w s []
    end.

(** [hasattr(obj, name)] *)
Definition hasattr (rt : Runtime W) (obj : value) (name : string) : Py W S bool :=
  fun w s =>
    Result (Returns (match getattr rt w obj name with Some _ => true | None => false end))
           w s [].

End Monad.

Notation "x <- m ;; k" := (bind m (fun x => k))
  (at level 62, m at next level, right associativity).
Notation "m ;;; k" := (bind m (fun _ => k))
  (at level 62, right associativity).

(** [except Exception] *)
Definition any_exception (e : exn) : bool := true.

(** [except (OSError, ValueError)] *)
Definition os_or_value_error (e : exn) : bool :=
  match exn_cls e with
  | OSError | ValueError => true
  | _ => false
  end.

Section MonadExtras.
Context {W S : Type}.

Definition modify_self (f : S -> S) : Py W S unit :=
  fun w s => Result (Returns tt) w (f s) [].

(** A path argument of [os.path]: anything but a [str] is a [TypeError]. *)
Definition expect_str (v : value) : Py W S string :=
  match v with
  | VStr s => ret s
  | _ => raise (Exn TypeError "expected str, bytes or os.PathLike object")
  end.

End MonadExtras.

(** ** Builtins used by the sources *)

Definition is_slash (c : ascii) : bool := Ascii.eqb c "/"%char.

Fixpoint drop_while {A : Type} (p : A -> bool) (l : list A) : list A :=
  match l with
  | [] => []
  | x :: l' => if p x then drop_while p l' else l
  end.

(** [os.path.dirname] (posixpath): the part before the last slash, without
    its trailing slashes unless it consists of slashes only. *)
Definition os_path_dirname (p : string) : string :=
  let head_rev := drop_while (fun c => negb (is_slash c)) (rev (list_ascii_of_string p)) in
  if forallb is_slash head_rev then string_of_list_ascii (rev head_rev)
  else string_of_list_ascii (rev (drop_while is_slash head_rev)).

(** [os.path.join(a, b)] (posixpath) *)
Definition os_path_join (a b : string) : string :=
  if String.prefix "/" b then b
  else if String.eqb a "" then b
  else match rev (list_ascii_of_string a) with
       | c :: _ => if is_slash c then a ++ b else a ++ "/" ++ b
       | [] => b
       end.

Definition hex_digit (n : N) : ascii :=
  match n with
  | 0%N => "0" | 1%N => "1" | 2%N => "2" | 3%N => "3"
  | 4%N => "4" | 5%N => "5" | 6%N => "6" | 7%N => "7"
  | 8%N => "8" | 9%N => "9" | 10%N => "a" | 11%N => "b"
  | 12%N => "c" | 13%N => "d" | 14%N => "e" | _ => "f"
  end%char.

(** [b.hex()] *)
Fixpoint bytes_hex (b : bytes) : string :=
  match b with
  | [] => ""
  | x :: b' =>
      let n := Byte.to_N x in
      String (hex_digit (n / 16)) (String (hex_digit (n mod 16)) (bytes_hex b'))
  end.

Definition hex_value (c : ascii) : option N :=
  let n := N_of_ascii c in
  if (48 <=? n)%N && (n <=? 57)%N then Some (n - 48)%N
  else if (97 <=? n)%N && (n <=? 102)%N then Some (n - 87)%N
  else if (65 <=? n)%N && (n <=? 70)%N then Some (n - 55)%N
  else None.

(** The characters [bytes.fromhex] skips between bytes: space, tab, line
    feed, vertical tab, form feed, carriage return. *)
Definition is_ascii_space (c : ascii) : bool :=
  let n := N_of_ascii c in (n =? 32)%N || ((9 <=? n)%N && (n <=? 13)%N).

(** [bytes.fromhex(s)]: [None] stands for the [ValueError]. *)
Fixpoint fromhex_chars (s : list ascii) : option bytes :=
  match s with
  | [] => Some []
  | c :: rest =>
      if is_ascii_space c then fromhex_chars rest
      else match rest with
           | [] => None
           | d :: rest' =>
               match hex_value c, hex_value d, fromhex_chars rest' with
               | Some hi, Some lo, Some tl =>
                   match Byte.of_N (hi * 16 + lo) with
                   | Some x => Some (x :: tl)
                   | None => None
                   end
               | _, _, _ => None
               end
           end
  end.

Definition bytes_fromhex (s : string) : option bytes :=
  fromhex_chars (list_ascii_of_string s).

(** [s[:n]] *)
Definition str_take (n : nat) (s : string) : string := String.substring 0 n s.

(** Modelled from the spec: [RNS.Reticulum.TRUNCATED_HASHLENGTH], in bits.
    The constant belongs to the Reticulum library; the spec fixes an address
    hash at 16 bytes, which is 128 bits. *)
Definition TRUNCATED_HASHLENGTH : nat := 128.

Section BuiltinCalls.
Context {W S : Type}.

(** [len(v)]: a [TypeError] for a value without a length. *)
Definition py_len (v : value) : Py W S nat :=
  match v with
  | VStr s => ret (String.length s)
  | VBytes b => ret (length b)
  | VList items => ret (length items)
  | VDict fields => ret (length fields)
  | _ => raise (Exn TypeError "object has no len()")
  end.

(** [v.hex()]: bytes have it, library objects answer for themselves, the
    other values have no such method. *)
Definition py_hex (rt : Runtime W) (v : value) : Py W S value :=
  match v with
  | VBytes b => ret (VStr (bytes_hex b))
  | VObj _ | VName _ => ext rt (Method v "hex" [] [])
  | _ => raise (Exn AttributeError "hex")
  end.

End BuiltinCalls.

(** ** rns.py *)

Module RNSManager.

Record t : Type := Mk { identity : value; initialized : bool }.

(** [RNSManager.__init__] *)
Definition init : t := Mk VNone false.

Definition set_identity (v : value) (self : t) : t := Mk v (initialized self).
Definition set_initialized (b : bool) (self : t) : t := Mk (identity self) b.

Section Methods.
Context {W : Type} (rt : Runtime W).

Definition initialize : Py W t bool :=
  try_except
    (self <- get_self ;;
     (if negb (initialized self) then
        new rt (Ctor "RNS.Reticulum" [] []) ;;;
        modify_self (set_initialized true)
      else ret tt) ;;;
     ret true)
    os_or_value_error
    (fun e => print ("Failed to initialize Reticulum: " ++ exn_msg e) ;;; ret false).

Definition create_identity : Py W t value :=
  try_except
    (config_path <- attr rt (VName "RNS.Reticulum") "configpath" ;;
     config_path <- expect_str config_path ;;
     let storage_dir := os_path_join (os_path_dirname config_path) "storage" in
     let identity_file := os_path_join storage_dir "identity" in
     found <- ext rt (Func "os.path.exists" [VStr identity_file] []) ;;
     if truthy found then
       loaded <- ext rt (Func "RNS.Identity.from_file" [VStr identity_file] []) ;;
       modify_self (set_identity loaded) ;;;
       self <- get_self ;;
       ret (identity self)
     else
       created <- new rt (Ctor "RNS.Identity" [] []) ;;
       modify_self (set_identity created) ;;;
       ext rt (Func "os.makedirs" [VStr storage_dir] [("exist_ok", VBool true)]) ;;;
       self <- get_self ;;
       ext rt (Method (identity self) "to_file" [VStr identity_file] []) ;;;
       self <- get_self ;;
       ret (identity self))
    any_exception
    (fun e => print ("Failed to create/load identity: " ++ exn_msg e) ;;; ret VNone).

(** [n] calls of [initialize] in a row, with what each returned. *)
Fixpoint initialize_times (n : nat) : Py W t (list bool) :=
  match n with
  | O => ret []
  | S n' =>
      b <- initialize ;;
      bs <- initialize_times n' ;;
      ret (b :: bs)
  end.

Definition load_identity (identity_data : value) : Py W t value :=
  try_except
    (loaded <- ext rt (Func "RNS.Identity.from_bytes" [identity_data] []) ;;
     modify_self (set_identity loaded) ;;;
     self <- get_self ;;
     ret (identity self))
    any_exception
    (fun e => print ("Failed to load identity: " ++ exn_msg e) ;;; ret VNone).

Definition save_identity : Py W t value :=
  try_except
    (self <- get_self ;;
     if truthy (identity self) then ext rt (Method (identity self) "to_bytes" [] [])
     else ret VNone)
    any_exception
    (fun e => print ("Failed to save identity: " ++ exn_msg e) ;;; ret VNone).

Definition get_identity_hash : Py W t value :=
  self <- get_self ;;
  if truthy (identity self) then attr rt (identity self) "hash" else ret VNone.

(** The dict that [get_status] returns. *)
Record status : Type := Status {
  connected : bool;
  interfaces : nat;
  peers : nat;
  identity_hash : value
}.

Definition get_status : Py W t status :=
  self <- get_self ;;
  up <- (if initialized self then ext rt (Func "RNS.Reticulum.is_connected" [] [])
         else ret (VBool false)) ;;
  if initialized self && truthy up then
    found <- ext rt (Func "RNS.Reticulum.get_interfaces" [] []) ;;
    n_interfaces <- py_len found ;;
    known <- ext rt (Func "RNS.Reticulum.get_peers" [] []) ;;
    n_peers <- py_len known ;;
    self <- get_self ;;
    shown <- (if truthy (identity self) then
                h <- get_identity_hash ;; py_hex rt h
              else ret VNone) ;;
    ret (Status true n_interfaces n_peers shown)
  else ret (Status false 0 0 VNone).

End Methods.
End RNSManager.

(** ** lxmf.py *)

(** The [destination_hash] argument of [create_message]: "16-byte bytes or
    hex string". *)
Inductive hash_arg : Type :=
| HashStr (s : string)
| HashBytes (b : bytes).

Module LXMFManager.

Record t : Type := Mk {
  router : value;
  identity : value;
  destination : value;
  storage_path : value
}.

(** [LXMFManager.__init__] *)
Definition init : t := Mk VNone VNone VNone VNone.

Definition set_router (v : value) (self : t) : t :=
  Mk v (identity self) (destination self) (storage_path self).
Definition set_identity (v : value) (self : t) : t :=
  Mk (router self) v (destination self) (storage_path self).
Definition set_destination (v : value) (self : t) : t :=
  Mk (router self) (identity self) v (storage_path self).
Definition set_storage_path (v : value) (self : t) : t :=
  Mk (router self) (identity self) (destination self) v.

Section Methods.
Context {W : Type} (rt : Runtime W).

Definition initialize (identity_arg : value) (destination_name : string)
    (storage_path_arg display_name : option string) : Py W t bool :=
  try_except
    (match storage_path_arg with
     | None =>
         tmp <- ext rt (Func "tempfile.gettempdir" [] []) ;;
         tmp <- expect_str tmp ;;
         modify_self (set_storage_path (VStr (os_path_join tmp "lxmf_storage")))
     | Some p => modify_self (set_storage_path (VStr p))
     end ;;;
     self <- get_self ;;
     ext rt (Func "os.makedirs" [storage_path self] [("exist_ok", VBool true)]) ;;;
     r <- new rt (Ctor "LXMF.LXMRouter" []
                    [("identity", identity_arg); ("storagepath", storage_path self)]) ;;
     modify_self (set_router r) ;;;
     let display :=
       match display_name with
       | Some d => if truthy (VStr d) then d else destination_name
       | None => destination_name
       end in
     d <- ext rt (Method r "register_delivery_identity" [identity_arg]
                    [("display_name", VStr display)]) ;;
     modify_self (set_destination d) ;;;
     (if negb (truthy d) then
        has <- hasattr rt r "delivery_destinations" ;;
        dd <- (if has then attr rt r "delivery_destinations" else ret VNone) ;;
        if has && truthy dd then
          match dd with
          | VList (first :: _) => modify_self (set_destination (VObj first))
          | _ => raise (Exn AttributeError "values")
          end
        else
          d' <- new rt (Ctor "RNS.Destination"
                          [identity_arg; VName "RNS.Destination.IN";
                           VName "RNS.Destination.SINGLE"; VStr destination_name] []) ;;
          modify_self (set_destination d')
      else ret tt) ;;;
     modify_self (set_identity identity_arg) ;;;
     ret true)
    any_exception
    (fun e => print ("Failed to initialize LXMF: " ++ exn_msg e) ;;; ret false).

(** The part of [create_message] after the checks of the manager and of
    the address: recall the recipient, build the message. *)
Definition build_message (h : bytes) (content title fields : value) : Py W t value :=
  recalled <- ext rt (Func "RNS.Identity.recall" [VBytes h] []) ;;
  if is_none recalled then
    print "Could not recall Identity for destination. Requesting path..." ;;;
    ext rt (Func "RNS.Transport.request_path" [VBytes h] []) ;;;
    print "Path requested. Waiting for announce..." ;;;
    ret VNone
  else
    lxmf_destination <-
      new rt (Ctor "RNS.Destination"
                [recalled; VName "RNS.Destination.OUT"; VName "RNS.Destination.SINGLE";
                 VStr "lxmf"; VStr "delivery"] []) ;;
    self <- get_self ;;
    try_except
      (message <-
         new rt (Ctor "LXMF.LXMessage"
                   [lxmf_destination; destination self; content]
                   [("title", if truthy title then title else VStr "");
                    ("desired_method", VName "LXMF.LXMessage.DIRECT")]) ;;
       ext rt (SetAttr message "try_propagation_on_fail" (VBool true)) ;;;
       (if truthy fields then ext rt (SetAttr message "fields" fields) ;;; ret tt
        else ret tt) ;;;
       ret message)
      any_exception
      (fun e => print ("Failed to create LXMF message: " ++ exn_msg e) ;;; ret VNone).

(** The length check of [create_message] and what follows it. *)
Definition check_length (h : bytes) (content title fields : value) : Py W t value :=
  if negb (Nat.eqb (length h) (TRUNCATED_HASHLENGTH / 8)) then
    print ("Invalid destination hash length: " ++ pretty (length h)) ;;;
    ret VNone
  else build_message h content title fields.

Definition create_message (destination_hash : hash_arg) (content title fields : value)
    : Py W t value :=
  try_except
    (self <- get_self ;;
     if negb (truthy (destination self)) then
       print "LXMF destination not initialized" ;;;
       ret VNone
     else
       match destination_hash with
       | HashStr s =>
           match bytes_fromhex s with
           | None => print ("Invalid hash format: " ++ s) ;;; ret VNone
           | Some h => check_length h content title fields
           end
       | HashBytes h => check_length h content title fields
       end)
    any_exception
    (fun e => print ("Failed to create LXMF message: " ++ exn_msg e) ;;; ret VNone).

Definition send_message (message : value) : Py W t bool :=
  try_except
    (self <- get_self ;;
     if truthy (router self) then
       ext rt (Method (router self) "handle_outbound" [message] []) ;;;
       ret true
     else
       print "LXMF router not initialized" ;;;
       ret false)
    any_exception
    (fun e => print ("Failed to send LXMF message: " ++ exn_msg e) ;;; ret false).

Definition announce : Py W t bool :=
  try_except
    (self <- get_self ;;
     if truthy (destination self) then
       ext rt (Method (destination self) "announce" [] []) ;;;
       ret true
     else ret false)
    any_exception
    (fun e => print ("Failed to announce destination: " ++ exn_msg e) ;;; ret false).

End Methods.
End LXMFManager.

(** ** lxst.py *)

Module LXSTManager.

Record t : Type := Mk {
  sources : gmap string value;
  sinks : gmap string value;
  pipelines : gmap string value;
  identity : value;
  destination : value
}.

(** [LXSTManager.__init__] *)
Definition init : t := Mk ∅ ∅ ∅ VNone VNone.

Definition set_sources (m : gmap string value) (self : t) : t :=
  Mk m (sinks self) (pipelines self) (identity self) (destination self).
Definition set_sinks (m : gmap string value) (self : t) : t :=
  Mk (sources self) m (pipelines self) (identity self) (destination self).
Definition set_pipelines (m : gmap string value) (self : t) : t :=
  Mk (sources self) (sinks self) m (identity self) (destination self).

Definition set_identity (v : value) (self : t) : t :=
  Mk (sources self) (sinks self) (pipelines self) v (destination self).
Definition set_destination (v : value) (self : t) : t :=
  Mk (sources self) (sinks self) (pipelines self) (identity self) v.

Section Methods.
Context {W : Type} (rt : Runtime W).

Definition create_audio_source (source_type : string) (kwargs : list (string * value))
    : Py W t value :=
  try_except
    (made <-
       (if String.eqb source_type "local" then
          source <- new rt (Ctor "LXST.LocalSource" [] kwargs) ;; ret (Some source)
        else if String.eqb source_type "remote" then
          source <- new rt (Ctor "LXST.Network.RemoteSource" [] kwargs) ;; ret (Some source)
        else if String.eqb source_type "file" then
          source <- new rt (Ctor "LXST.OpusFileSource" [] kwargs) ;; ret (Some source)
        else
          print ("Unknown source type: " ++ source_type) ;;; ret None) ;;
     match made with
     | None => ret VNone
     | Some source =>
         let source_id := "source_" ++ pretty (py_id source) in
         modify_self (fun self => set_sources (<[source_id := source]> (sources self)) self) ;;;
         ret source
     end)
    any_exception
    (fun e => print ("Failed to create audio source: " ++ exn_msg e) ;;; ret VNone).

Definition create_audio_sink (sink_type : string) (kwargs : list (string * value))
    : Py W t value :=
  try_except
    (made <-
       (if String.eqb sink_type "local" then
          sink <- new rt (Ctor "LXST.LocalSink" [] kwargs) ;; ret (Some sink)
        else if String.eqb sink_type "remote" then
          sink <- new rt (Ctor "LXST.Network.RemoteSink" [] kwargs) ;; ret (Some sink)
        else if String.eqb sink_type "null" then
          sink <- new rt (Ctor "LXST.Network.Null" [] kwargs) ;; ret (Some sink)
        else
          print ("Unknown sink type: " ++ sink_type) ;;; ret None) ;;
     match made with
     | None => ret VNone
     | Some sink =>
         let sink_id := "sink_" ++ pretty (py_id sink) in
         modify_self (fun self => set_sinks (<[sink_id := sink]> (sinks self)) self) ;;;
         ret sink
     end)
    any_exception
    (fun e => print ("Failed to create audio sink: " ++ exn_msg e) ;;; ret VNone).

Definition create_pipeline (source sink : value) (kwargs : list (string * value))
    : Py W t value :=
  try_except
    (pipeline <- new rt (Ctor "LXST.Pipeline" [source; sink] kwargs) ;;
     let pipeline_id := "pipeline_" ++ pretty (py_id pipeline) in
     modify_self (fun self => set_pipelines (<[pipeline_id := pipeline]> (pipelines self)) self) ;;;
     ret pipeline)
    any_exception
    (fun e => print ("Failed to create pipeline: " ++ exn_msg e) ;;; ret VNone).

Definition start_pipeline (pipeline : value) : Py W t bool :=
  try_except
    (ext rt (Method pipeline "start" [] []) ;;; ret true)
    any_exception
    (fun e => print ("Failed to start pipeline: " ++ exn_msg e) ;;; ret false).

Definition stop_pipeline (pipeline : value) : Py W t bool :=
  try_except
    (ext rt (Method pipeline "stop" [] []) ;;; ret true)
    any_exception
    (fun e => print ("Failed to stop pipeline: " ++ exn_msg e) ;;; ret false).

Definition close_pipeline (pipeline_id : string) : Py W t bool :=
  try_except
    (self <- get_self ;;
     match pipelines self !! pipeline_id with
     | Some pipeline =>
         has <- hasattr rt pipeline "active" ;;
         active <- (if has then attr rt pipeline "active" else ret VNone) ;;
         (if has && truthy active then ext rt (Method pipeline "stop" [] []) ;;; ret tt
          else ret tt) ;;;
         modify_self (fun self => set_pipelines (delete pipeline_id (pipelines self)) self) ;;;
         ret true
     | None => ret false
     end)
    any_exception
    (fun e => print ("Failed to close pipeline " ++ pipeline_id ++ ": " ++ exn_msg e) ;;;
              ret false).

Definition initialize (identity_arg : value) (destination_name : string) : Py W t bool :=
  try_except
    (modify_self (set_identity identity_arg) ;;;
     d <- new rt (Ctor "RNS.Destination"
                    [identity_arg; VName "RNS.Destination.IN";
                     VName "RNS.Destination.SINGLE"; VStr destination_name] []) ;;
     modify_self (set_destination d) ;;;
     ret true)
    any_exception
    (fun e => print ("Failed to initialize LXST: " ++ exn_msg e) ;;; ret false).

Definition create_mixer (kwargs : list (string * value)) : Py W t value :=
  try_except
    (new rt (Ctor "LXST.Mixer" [] kwargs))
    any_exception
    (fun e => print ("Failed to create mixer: " ++ exn_msg e) ;;; ret VNone).

Definition create_telephone (destination_hash : value) (kwargs : list (string * value))
    : Py W t value :=
  try_except
    (new rt (Ctor "LXST.Telephone" [destination_hash] kwargs))
    any_exception
    (fun e => print ("Failed to create telephone: " ++ exn_msg e) ;;; ret VNone).

(** [getattr(pipeline, 'active', False)], as a truth value. *)
Definition is_active (w : W) (pipeline : value) : bool :=
  match getattr rt w pipeline "active" with
  | Some v => truthy v
  | None => false
  end.

(** The ids come in the order of [map_to_list]; the order in which the
    dict holds them is not part of the model. *)
Definition list_active_pipelines : Py W t (list string) :=
  fun w self =>
    Result (Returns (map fst (filter (fun entry => is_active w (snd entry) = true)
                                (map_to_list (pipelines self)))))
           w self [].

Definition announce_destination : Py W t bool :=
  try_except
    (self <- get_self ;;
     if truthy (destination self) then
       ext rt (Method (destination self) "announce" [] []) ;;;
       ret true
     else ret false)
    any_exception
    (fun e => print ("Failed to announce destination: " ++ exn_msg e) ;;; ret false).

End Methods.
End LXSTManager.

(** ** app.py: the inbound delivery callback *)

Module App.

(** One entry of [messages_list].  The callback's dict has no ["is_sent"]
    key; the entry that [send_message] adds for an outbound echo has it. *)
Record msg_data : Type := MsgData {
  sender_name : value;
  sender_hash : value;
  sender_hash_bytes : value;
  title : string;
  content : string;
  is_sent : option bool
}.

(** The module globals the callback touches. *)
Record t : Type := Mk { messages_list : list msg_data; page_ref : value }.

Definition init : t := Mk [] VNone.

Definition set_messages_list (l : list msg_data) (self : t) : t := Mk l (page_ref self).

Section Callback.
Context {W : Type} (rt : Runtime W).

(** [str(v)] *)
Definition py_str (v : value) : string :=
  match v with VStr s => s | _ => str_of rt v end.

(** The text of the [content] or [title] attribute: [raw] is [None] when
    the message has no such attribute. *)
Definition text_of (raw : option value) : string :=
  match raw with
  | None => ""
  | Some (VBytes b) =>
      match utf8_decode rt b with
      | Some s => s
      | None => py_str (VBytes b)
      end
  | Some v => if truthy v then py_str v else ""
  end.

(** [dest.app_data.decode('utf-8')] under [try: ... except: pass]. *)
Definition decoded_app_data (app_data sender_name : value) : Py W t value :=
  match app_data with
  | VBytes b =>
      match utf8_decode rt b with
      | Some s => ret (VStr s)
      | None => ret sender_name
      end
  | VObj _ | VName _ =>
      try_except (ext rt (Method app_data "decode" [VStr "utf-8"] []))
        any_exception (fun _ => ret sender_name)
  | _ => ret sender_name
  end.

(** The loop over [RNS.Transport.destinations], left at the first
    destination whose hash is the sender's. *)
Fixpoint name_from (dests : list nat) (sender : value) (sender_name : value)
    : Py W t value :=
  match dests with
  | [] => ret sender_name
  | d :: rest =>
      let dest := VObj d in
      has_hash <- hasattr rt dest "hash" ;;
      h <- (if has_hash then attr rt dest "hash" else ret VNone) ;;
      if has_hash && py_eq h sender then
        has_name <- hasattr rt dest "display_name" ;;
        display_name <- (if has_name then attr rt dest "display_name" else ret VNone) ;;
        if has_name && truthy display_name then ret display_name
        else
          has_data <- hasattr rt dest "app_data" ;;
          app_data <- (if has_data then attr rt dest "app_data" else ret VNone) ;;
          if has_data && truthy app_data then decoded_app_data app_data sender_name
          else ret sender_name
      else name_from rest sender sender_name
  end.

Definition resolve_sender_name (sender : value) : Py W t value :=
  try_except
    (dests <- attr rt (VName "RNS.Transport") "destinations" ;;
     if truthy dests then
       match dests with
       | VList items => name_from items sender (VStr "Anonymous")
       | _ => raise (Exn TypeError "object is not iterable")
       end
     else ret (VStr "Anonymous"))
    any_exception
    (fun e => print ("Error getting sender name: " ++ exn_msg e) ;;;
              ret (VStr "Anonymous")).

(** [sender_hash.hex() if hasattr(sender_hash, 'hex') else str(sender_hash)[:16]] *)
Definition hash_text (sender : value) : Py W t value :=
  match sender with
  | VBytes b => ret (VStr (bytes_hex b))
  | VObj _ | VName _ =>
      has_hex <- hasattr rt sender "hex" ;;
      if has_hex then ext rt (Method sender "hex" [] [])
      else ret (VStr (str_take 16 (py_str sender)))
  | _ => ret (VStr (str_take 16 (py_str sender)))
  end.

(** [obj.name if hasattr(obj, name)]: [None] when the attribute is missing. *)
Definition probe (obj : value) (name : string) : Py W t (option value) :=
  has <- hasattr rt obj name ;;
  if has then v <- attr rt obj name ;; ret (Some v) else ret None.

(** [message.source_hash], else [message.source], else [None]. *)
Definition read_sender (message : value) : Py W t value :=
  has_source_hash <- hasattr rt message "source_hash" ;;
  if has_source_hash then attr rt message "source_hash"
  else
    has_source <- hasattr rt message "source" ;;
    if has_source then attr rt message "source" else ret VNone.

(** The pair [(sender_name, sender_hash_str)]. *)
Definition describe_sender (sender : value) : Py W t (value * value) :=
  if truthy sender then
    sender_name <- resolve_sender_name sender ;;
    sender_hash_str <- hash_text sender ;;
    ret (sender_name, sender_hash_str)
  else ret (VStr "Anonymous", VStr "Unknown").

Definition message_callback (message : value) : Py W t unit :=
  sender <- read_sender message ;;
  named <- describe_sender sender ;;
  content_raw <- probe message "content" ;;
  title_raw <- probe message "title" ;;
  let msg :=
    {| sender_name := fst named;
       sender_hash := snd named;
       sender_hash_bytes := sender;
       title := text_of title_raw;
       content := text_of content_raw;
       is_sent := None |} in
  modify_self (fun self => set_messages_list (msg :: messages_list self) self) ;;;
  self <- get_self ;;
  if truthy (page_ref self) then
    ext rt (Method (page_ref self) "run_thread" [VName "update_ui"] []) ;;; ret tt
  else ret tt.

End Callback.
End App.

(** ** A model of the LXST pipeline *)

Module LXSTPipeline.

(** Modelled from the spec: the class [LXST.Pipeline] belongs to the LXST
    library, which the repository only calls.  The spec gives a pipeline the
    lifecycle states created, running and stopped, an [active] flag that is
    true exactly while it runs, [start] as the transition
    created|stopped -> running, and [stop] as the transition
    running -> stopped that is a successful no-op on a pipeline that is
    already stopped. *)
Inductive lifecycle : Type := Created | Running | Stopped.

#[global] Instance lifecycle_eq_dec : EqDecision lifecycle.
Proof. solve_decision. Defined.

(** Modelled from the spec: [start] takes created|stopped to running. *)
Definition start (s : lifecycle) : lifecycle :=
  match s with
  | Created => Running
  | Stopped => Running
  | Running => Running
  end.

(** Modelled from the spec: [stop] takes running to stopped and is a
    no-op otherwise. *)
Definition stop (s : lifecycle) : lifecycle :=
  match s with
  | Running => Stopped
  | Created => Created
  | Stopped => Stopped
  end.

(** Modelled from the spec: the [active] flag of the statistics. *)
Definition active (s : lifecycle) : bool :=
  match s with Running => true | _ => false end.

(** The world is the pipelines that exist, by object reference; a new
    pipeline gets a reference that is not in use. *)
Definition next_ref (w : gmap nat lifecycle) : nat := fresh (dom w).

(** Modelled from the spec: the library as far as the streaming manager
    uses it.  A method of something that is no pipeline is an
    [AttributeError]. *)
Definition runtime : Runtime (gmap nat lifecycle) := {|
  construct c w :=
    if String.eqb (ctor_cls c) "LXST.Pipeline"
    then (Returns (next_ref w), <[next_ref w := Created]> w)
    else (Raises (Exn RuntimeError (ctor_cls c)), w);
  invoke c w :=
    match c with
    | Method (VObj n) name [] [] =>
        match w !! n with
        | Some s =>
            if String.eqb name "stop" then (Returns VNone, <[n := stop s]> w)
            else if String.eqb name "start" then (Returns VNone, <[n := start s]> w)
            else (Raises (Exn AttributeError name), w)
        | None => (Raises (Exn AttributeError name), w)
        end
    | Method _ name _ _ => (Raises (Exn AttributeError name), w)
    | Func name _ _ => (Raises (Exn RuntimeError name), w)
    | SetAttr _ name _ => (Raises (Exn AttributeError name), w)
    end;
  getattr w v name :=
    match v with
    | VObj n =>
        if String.eqb name "active" then (fun s => VBool (active s)) <$> w !! n else None
    | _ => None
    end;
  utf8_decode b := None;
  str_of v := ""
|}.

End LXSTPipeline.

(** ** Scripted runtimes

    A runtime whose answers are fixed by a script, for running the managers
    on concrete inputs.  The world is the reference the next constructed
    object gets. *)

Record script : Type := Script {
  ctor_raises : string -> option exn;
  answers : call -> outcome value;
  attrs : value -> string -> option value
}.

Definition ascii_text (b : bytes) : option string :=
  if forallb (fun x => (Byte.to_N x <? 128)%N) b then Some (string_of_list_byte b) else None.

Definition scripted (sc : script) : Runtime nat := {|
  construct c w :=
    match ctor_raises sc (ctor_cls c) with
    | Some e => (Raises e, w)
    | None => (Returns w, S w)
    end;
  invoke c w := (answers sc c, w);
  getattr w v name := attrs sc v name;
  utf8_decode := ascii_text;
  str_of v := "<object>"
|}.

Definition call_name (c : call) : string :=
  match c with
  | Func qualified _ _ => qualified
  | Method _ name _ _ => name
  | SetAttr _ name _ => name
  end.

(** Every library call answers [None]; no object has any attribute. *)
Definition quiet : script :=
  Script (fun _ => None) (fun _ => Returns VNone) (fun _ _ => None).

(** [RNS.Reticulum()] raises [OSError]. *)
Definition no_network : script :=
  Script (fun cls => if String.eqb cls "RNS.Reticulum"
                     then Some (Exn OSError "no interfaces") else None)
         (fun _ => Returns VNone) (fun _ _ => None).

(** [RNS.Identity.from_file] rejects the identity file that exists. *)
Definition corrupt_identity : script :=
  Script (fun _ => None)
         (fun c => if String.eqb (call_name c) "os.path.exists" then Returns (VBool true)
                   else if String.eqb (call_name c) "RNS.Identity.from_file"
                        then Raises (Exn ValueError "invalid key data")
                        else Returns VNone)
         (fun _ name => if String.eqb name "configpath"
                        then Some (VStr "/home/user/.reticulum/config") else None).

(** Recipients resolve, the message constructor raises. *)
Definition message_rejected : script :=
  Script (fun cls => if String.eqb cls "LXMF.LXMessage"
                     then Some (Exn ValueError "content too large") else None)
         (fun c => if String.eqb (call_name c) "RNS.Identity.recall" then Returns (VObj 9)
                   else Returns VNone)
         (fun _ _ => None).

(** The router is created, registering the delivery identity raises. *)
Definition registration_fails : script :=
  Script (fun _ => None)
         (fun c => if String.eqb (call_name c) "register_delivery_identity"
                   then Raises (Exn RuntimeError "registration refused")
                   else Returns VNone)
         (fun _ _ => None).

(** Every pipeline is active and refuses to stop. *)
Definition stop_raises : script :=
  Script (fun _ => None)
         (fun c => if String.eqb (call_name c) "stop"
                   then Raises (Exn RuntimeError "device busy") else Returns VNone)
         (fun _ name => if String.eqb name "active" then Some (VBool true) else None).

(** Object 4 is a message as the LXMF router delivers it; object 3 is a
    destination the transport has seen announce itself as "Bob". *)
Definition inbound : script :=
  Script (fun _ => None) (fun _ => Returns VNone)
         (fun v name =>
            match v with
            | VObj 4 =>
                if String.eqb name "source_hash" then Some (VBytes (repeat xab 16))
                else if String.eqb name "content" then Some (VBytes [x68; x69])
                else if String.eqb name "title" then Some (VBytes [])
                else None
            | VObj 3 =>
                if String.eqb name "hash" then Some (VBytes (repeat xab 16))
                else if String.eqb name "app_data" then Some (VBytes [x42; x6f; x62])
                else None
            | VName _ => if String.eqb name "destinations" then Some (VList [2; 3]) else None
            | _ => None
            end).

(** ** Concrete manager states *)

Definition zero_hash : bytes := repeat x00 16.

(** A messaging manager whose delivery destination is registered. *)
Definition registered : LXMFManager.t :=
  LXMFManager.Mk (VObj 1) (VObj 0) (VObj 2) (VStr "/tmp/lxmf_storage").

(** A streaming manager whose registry holds one pipeline. *)
Definition one_pipeline : LXSTManager.t :=
  LXSTManager.Mk ∅ ∅ {["pipeline_7" := VObj 7]} (VObj 0) (VObj 1).

(** The echo of a message sent earlier. *)
Definition earlier : App.msg_data :=
  App.MsgData (VStr "You") (VStr "00") (VBytes [x00]) "" "ping" (Some true).

(** ** Vocabulary of the statements *)

Definition reticulum : ctor := Ctor "RNS.Reticulum" [] [].

(** The canonical path of the identity file, from [RNS.Reticulum.configpath]. *)
Definition identity_file_of (config_path : string) : string :=
  os_path_join (os_path_join (os_path_dirname config_path) "storage") "identity".

(** An event that generates or persists an identity. *)
Definition fabricates (ev : event) : bool :=
  match ev with
  | Constructed c => String.eqb (ctor_cls c) "RNS.Identity"
  | Called (Method _ name _ _) => String.eqb name "to_file"
  | _ => false
  end.

Definition recall_of (h : bytes) : call := Func "RNS.Identity.recall" [VBytes h] [].

Definition request_path_of (h : bytes) : call :=
  Func "RNS.Transport.request_path" [VBytes h] [].

Definition handle_outbound_of (router message : value) : call :=
  Method router "handle_outbound" [message] [].

Definition stop_of (pipeline : value) : call := Method pipeline "stop" [] [].

(** [m] leaves the manager's fields alone. *)
Definition keeps_self {W S A : Type} (m : Py W S A) : Prop :=
  forall (w : W) (s : S), self_of (m w s) = s.

(** [m] returns; it never raises. *)
Definition returns {W S A : Type} (m : Py W S A) : Prop :=
  forall (w : W) (s : S), exists a, value_of (m w s) = Returns a.

(** A value that denotes an object of a library rather than data. *)
Definition is_object (v : value) : bool :=
  match v with VObj _ | VName _ => true | _ => false end.

(** The sender's address as the callback reads it off [message]. *)
Definition sender_of {W : Type} (rt : Runtime W) (w : W) (message : value) : value :=
  match getattr rt w message "source_hash" with
  | Some v => v
  | None =>
      match getattr rt w message "source" with
      | Some v => v
      | None => VNone
      end
  end.

(** ** Tactics *)

Ltac py_unfold :=
  unfold bind, try_except, ret, raise, print, get_self, put_self, modify_self,
    new, ext, attr, hasattr, expect_str in *.

Ltac py_simpl :=
  cbn [value_of world_of self_of events_of after app negb andb fst snd any_exception].

(** Runs a method as far as the calls it has made are known. *)
Ltac py_run := repeat (progress (py_unfold; py_simpl)).

Create HintDb keeps.

#[local] Hint Extern 1 (keeps_self (if ?b then _ else _)) => destruct b : keeps.
#[local] Hint Extern 1 (keeps_self (match ?v with _ => _ end)) => destruct v : keeps.

(** ** Further scripted runtimes *)

(** An identity file exists and loads as object 5. *)
Definition stored_identity : script :=
  Script (fun _ => None)
         (fun c => if String.eqb (call_name c) "os.path.exists" then Returns (VBool true)
                   else if String.eqb (call_name c) "RNS.Identity.from_file"
                        then Returns (VObj 5)
                        else Returns VNone)
         (fun _ name => if String.eqb name "configpath"
                        then Some (VStr "/home/user/.reticulum/config") else None).

(** No identity file yet; every call succeeds. *)
Definition fresh_install : script :=
  Script (fun _ => None)
         (fun c => if String.eqb (call_name c) "os.path.exists" then Returns (VBool false)
                   else Returns VNone)
         (fun _ name => if String.eqb name "configpath"
                        then Some (VStr "/home/user/.reticulum/config")
                        else if String.eqb name "hash" then Some (VBytes (repeat x11 16))
                        else None).

(** No identity file yet, and the identity cannot be written. *)
Definition read_only_storage : script :=
  Script (fun _ => None)
         (fun c => if String.eqb (call_name c) "os.path.exists" then Returns (VBool false)
                   else if String.eqb (call_name c) "to_file"
                        then Raises (Exn OSError "read-only file system")
                        else Returns VNone)
         (fun _ name => if String.eqb name "configpath"
                        then Some (VStr "/home/user/.reticulum/config")
                        else if String.eqb name "hash" then Some (VBytes (repeat x11 16))
                        else None).

(** [RNS.Reticulum()] raises a [TypeError]. *)
Definition misconfigured : script :=
  Script (fun cls => if String.eqb cls "RNS.Reticulum"
                     then Some (Exn TypeError "bad configuration") else None)
         (fun _ => Returns VNone) (fun _ _ => None).

(** Every recipient resolves to the identity object 9. *)
Definition peer_known : script :=
  Script (fun _ => None)
         (fun c => if String.eqb (call_name c) "RNS.Identity.recall" then Returns (VObj 9)
                   else Returns VNone)
         (fun _ _ => None).

(** Every pipeline is active and stops when asked. *)
Definition playing : script :=
  Script (fun _ => None) (fun _ => Returns VNone)
         (fun _ name => if String.eqb name "active" then Some (VBool true) else None).


(** [RNS.Identity.from_bytes] raises on the key it is given. *)
Definition bad_key_bytes : script :=
  Script (fun _ => None)
         (fun c => if String.eqb (call_name c) "RNS.Identity.from_bytes"
                   then Raises (Exn ValueError "invalid key data") else Returns VNone)
         (fun _ _ => None).

(** ** Further vocabulary of the statements *)

Definition exists_of (path : string) : call := Func "os.path.exists" [VStr path] [].

Definition from_file_of (path : string) : call :=
  Func "RNS.Identity.from_file" [VStr path] [].

Definition new_identity : ctor := Ctor "RNS.Identity" [] [].

(** The storage directory, from [RNS.Reticulum.configpath]. *)
Definition storage_dir_of (config_path : string) : string :=
  os_path_join (os_path_dirname config_path) "storage".

Definition makedirs_of (dir : value) : call :=
  Func "os.makedirs" [dir] [("exist_ok", VBool true)].

Definition to_file_of (identity : value) (path : string) : call :=
  Method identity "to_file" [VStr path] [].

Definition is_connected_call : call := Func "RNS.Reticulum.is_connected" [] [].

Definition from_bytes_of (data : value) : call := Func "RNS.Identity.from_bytes" [data] [].

Definition ends_with_slash (s : string) : bool :=
  match rev (list_ascii_of_string s) with
  | c :: _ => is_slash c
  | [] => false
  end.

Definition has_slash (s : string) : bool := existsb is_slash (list_ascii_of_string s).

(** The operations of the messaging manager, for runs of several calls. *)
Inductive lxmf_op : Type :=
| OpInitialize (identity_arg : value) (destination_name : string)
    (storage_path_arg display_name : option string)
| OpCreateMessage (destination_hash : hash_arg) (content title fields : value)
| OpSendMessage (message : value)
| OpAnnounce.

(** One call on the manager: the world and the manager it leaves. *)
Definition lxmf_step {W : Type} (rt : Runtime W) (st : W * LXMFManager.t) (op : lxmf_op)
    : W * LXMFManager.t :=
  match op with
  | OpInitialize identity_arg destination_name storage_path_arg display_name =>
      let r := LXMFManager.initialize rt identity_arg destination_name storage_path_arg
                 display_name (fst st) (snd st) in
      (world_of r, self_of r)
  | OpCreateMessage destination_hash content title fields =>
      let r := LXMFManager.create_message rt destination_hash content title fields
                 (fst st) (snd st) in
      (world_of r, self_of r)
  | OpSendMessage message =>
      let r := LXMFManager.send_message rt message (fst st) (snd st) in
      (world_of r, self_of r)
  | OpAnnounce =>
      let r := LXMFManager.announce rt (fst st) (snd st) in
      (world_of r, self_of r)
  end.

Definition lxmf_run {W : Type} (rt : Runtime W) (ops : list lxmf_op) (st : W * LXMFManager.t)
    : W * LXMFManager.t :=
  fold_left (lxmf_step rt) ops st.

(** A registered destination comes with a router. *)
Definition routed (self : LXMFManager.t) : Prop :=
  truthy (LXMFManager.destination self) = true -> truthy (LXMFManager.router self) = true.

(** The message constructor call of [create_message]. *)
Definition lxmessage_of (lxmf_destination source content title : value) : ctor :=
  Ctor "LXMF.LXMessage" [lxmf_destination; source; content]
    [("title", if truthy title then title else VStr "");
     ("desired_method", VName "LXMF.LXMessage.DIRECT")].

(** The bytes an address argument stands for. *)
Definition address_of (destination_hash : hash_arg) : option bytes :=
  match destination_hash with
  | HashStr s => bytes_fromhex s
  | HashBytes b => Some b
  end.

(** The registry keys: [f"source_{id(source)}"] and the like. *)
Definition source_key (n : nat) : string := "source_" ++ pretty n.
Definition sink_key (n : nat) : string := "sink_" ++ pretty n.
Definition pipeline_key (n : nat) : string := "pipeline_" ++ pretty n.

Definition pipeline_of (source sink : value) (kwargs : list (string * value)) : ctor :=
  Ctor "LXST.Pipeline" [source; sink] kwargs.



(** ** Tactics for case analysis on the libraries' answers *)

Ltac py_case :=
  match goal with
  | |- context [invoke ?rt ?c ?w] => destruct (invoke rt c w) as [[?|?] ?] eqn:?
  | |- context [construct ?rt ?c ?w] => destruct (construct rt c w) as [[?|?] ?] eqn:?
  | |- context [getattr ?rt ?w ?o ?n] => destruct (getattr rt w o n) eqn:?
  | |- context [truthy ?v] => is_var v; destruct (truthy v) eqn:?
  end.

Ltac py_value :=
  match goal with
  | |- context [match ?v with VNone => _ | _ => _ end] => is_var v; destruct v
  | |- context [match ?l with [] => _ | _ :: _ => _ end] => is_var l; destruct l
  end.

Ltac py_none :=
  match goal with
  | |- context [is_none ?v] => is_var v; destruct (is_none v) eqn:?
  end.

(** Runs a method through every answer the libraries can give. *)
Ltac py_auto := py_run; repeat (first [py_case | py_value | py_none]; py_run).


(** * Properties *)

(** ** The monad *)

Section PyFacts.
Context {W S : Type}.

Lemma events_after {A : Type} (ev : list event) (r : result W S A) :
  events_of (after ev r) = (ev ++ events_of r)%list.
Proof. destruct r; reflexivity. Qed.

Lemma value_after {A : Type} (ev : list event) (r : result W S A) :
  value_of (after ev r) = value_of r.
Proof. destruct r; reflexivity. Qed.

Lemma self_after {A : Type} (ev : list event) (r : result W S A) :
  self_of (after ev r) = self_of r.
Proof. destruct r; reflexivity. Qed.

(** Sequencing two runs that are known. *)
Lemma bind_run {A B : Type} {m : Py W S A} {k : A -> Py W S B} {w w1 w2 : W}
    {s s1 s2 : S} {a : A} {o : outcome B} {ev1 ev2 : list event} :
  m w s = Result (Returns a) w1 s1 ev1 ->
  k a w1 s1 = Result o w2 s2 ev2 ->
  bind m k w s = Result o w2 s2 (ev1 ++ ev2).
Proof. intros Hm Hk. unfold bind. rewrite Hm, Hk. reflexivity. Qed.

Lemma keeps_get_self : keeps_self (@get_self W S).
Proof. intros w s. reflexivity. Qed.

Lemma keeps_ret {A : Type} (a : A) : keeps_self (@ret W S A a).
Proof. intros w s. reflexivity. Qed.

Lemma keeps_raise {A : Type} (e : exn) : keeps_self (@raise W S A e).
Proof. intros w s. reflexivity. Qed.

Lemma keeps_print (line : string) : keeps_self (@print W S line).
Proof. intros w s. reflexivity. Qed.

Lemma keeps_ext (rt : Runtime W) (c : call) : keeps_self (@ext W S rt c).
Proof. intros w s. unfold ext. destruct (invoke rt c w). reflexivity. Qed.

Lemma keeps_attr (rt : Runtime W) (obj : value) (name : string) :
  keeps_self (@attr W S rt obj name).
Proof. intros w s. unfold attr. destruct (getattr rt w obj name); reflexivity. Qed.

Lemma keeps_hasattr (rt : Runtime W) (obj : value) (name : string) :
  keeps_self (@hasattr W S rt obj name).
Proof. intros w s. reflexivity. Qed.

Lemma keeps_bind {A B : Type} (m : Py W S A) (k : A -> Py W S B) :
  keeps_self m -> (forall a, keeps_self (k a)) -> keeps_self (bind m k).
Proof.
  intros Hm Hk w s. unfold bind. specialize (Hm w s).
  destruct (m w s) as [[a|e] w1 s1 ev]; cbn in *; subst s1;
    [rewrite self_after; apply Hk | reflexivity].
Qed.

Lemma keeps_try {A : Type} (m : Py W S A) (catches : exn -> bool)
    (handler : exn -> Py W S A) :
  keeps_self m -> (forall e, keeps_self (handler e)) ->
  keeps_self (try_except m catches handler).
Proof.
  intros Hm Hh w s. unfold try_except. specialize (Hm w s).
  destruct (m w s) as [[a|e] w1 s1 ev]; cbn in *; subst s1; [reflexivity|].
  destruct (catches e); [rewrite self_after; apply Hh | reflexivity].
Qed.

(** A [try] whose handler catches everything and returns, returns. *)
Lemma returns_try_any {A : Type} (m : Py W S A) (handler : exn -> Py W S A) :
  (forall e, returns (handler e)) -> returns (try_except m any_exception handler).
Proof.
  intros Hh w s. unfold try_except.
  destruct (m w s) as [[a|e] w1 s1 ev]; cbn [any_exception].
  - eexists. reflexivity.
  - rewrite value_after. apply Hh.
Qed.

(** What holds of the fields before [m], and after [k] from the same
    fields, holds after [m] followed by [k]. *)
Lemma bind_post {A B : Type} (m : Py W S A) (k : A -> Py W S B) (Q : S -> Prop)
    (w : W) (s : S) :
  keeps_self m -> Q s -> (forall a w', Q (self_of (k a w' s))) ->
  Q (self_of (bind m k w s)).
Proof.
  intros Hm Hs Hk. unfold bind. specialize (Hm w s).
  destruct (m w s) as [[a|e] w1 s1 ev]; cbn in *; subst s1;
    [rewrite self_after; apply Hk | exact Hs].
Qed.

Lemma bind_self_returns {A B : Type} (m : Py W S A) (k : A -> Py W S B) (w : W) (s : S) :
  keeps_self m -> (exists a, value_of (m w s) = Returns a) ->
  exists a w', self_of (bind m k w s) = self_of (k a w' s).
Proof.
  intros Hm [a Ha]. unfold bind. specialize (Hm w s).
  destruct (m w s) as [[a'|e] w1 s1 ev]; cbn in *; subst s1; [|discriminate].
  exists a', w1. apply self_after.
Qed.

End PyFacts.

#[local] Hint Resolve keeps_get_self keeps_ret keeps_raise keeps_print keeps_ext keeps_attr
  keeps_hasattr keeps_bind keeps_try : keeps.

(** ** rns.py *)

Section RNSFacts.
Context {W : Type} (rt : Runtime W).

Lemma initialize_initialized (w : W) (self : RNSManager.t) :
  RNSManager.initialized self = true ->
  RNSManager.initialize rt w self = Result (Returns true) w self [].
Proof.
  intros Hinit. unfold RNSManager.initialize. py_run. rewrite Hinit. reflexivity.
Qed.

Lemma initialize_first (w w' : W) (self : RNSManager.t) (n : nat) :
  RNSManager.initialized self = false ->
  construct rt reticulum w = (Returns n, w') ->
  RNSManager.initialize rt w self =
    Result (Returns true) w' (RNSManager.set_initialized true self) [Constructed reticulum].
Proof.
  intros Hinit Hnew. unfold RNSManager.initialize. py_run. rewrite Hinit. py_run.
  fold reticulum. rewrite Hnew. reflexivity.
Qed.

Lemma initialize_failed (w w' : W) (self : RNSManager.t) (e : exn) :
  RNSManager.initialized self = false ->
  construct rt reticulum w = (Raises e, w') ->
  os_or_value_error e = true ->
  RNSManager.initialize rt w self =
    Result (Returns false) w' self
      [Constructed reticulum; Stdout ("Failed to initialize Reticulum: " ++ exn_msg e)].
Proof.
  intros Hinit Hnew He. unfold RNSManager.initialize. py_run. rewrite Hinit. py_run.
  fold reticulum. rewrite Hnew. py_run. rewrite He. reflexivity.
Qed.

Lemma initialize_times_initialized (n : nat) (w : W) (self : RNSManager.t) :
  RNSManager.initialized self = true ->
  RNSManager.initialize_times rt n w self = Result (Returns (repeat true n)) w self [].
Proof.
  intros Hinit. induction n as [|n IH]; [reflexivity|].
  cbn [RNSManager.initialize_times].
  rewrite (bind_run (initialize_initialized w self Hinit) (bind_run IH eq_refl)).
  reflexivity.
Qed.

(** C3, as amended.  Once [initialize] has succeeded, any number of
    further calls are no-ops that return [True]: the world and the manager
    stay as they are and nothing is logged, so no second Reticulum instance
    is constructed.  On a manager that is not initialized yet, if the
    construction of the Reticulum instance succeeds, then in a sequence of
    one or more calls every call returns [True] and the instance is
    constructed exactly once, by the first call.  If the construction raises
    an [OSError] or a [ValueError], the call returns [False] and leaves the
    manager uninitialized. *)
Theorem initialize_idempotent (n : nat) (w : W) (self : RNSManager.t) :
  (RNSManager.initialized self = true ->
   RNSManager.initialize_times rt n w self = Result (Returns (repeat true n)) w self []) /\
  (forall (o : nat) (w' : W),
     RNSManager.initialized self = false ->
     construct rt reticulum w = (Returns o, w') ->
     RNSManager.initialize_times rt (S n) w self =
       Result (Returns (repeat true (S n))) w' (RNSManager.set_initialized true self)
         [Constructed reticulum]) /\
  (forall (e : exn) (w' : W),
     RNSManager.initialized self = false ->
     construct rt reticulum w = (Raises e, w') ->
     os_or_value_error e = true ->
     RNSManager.initialize rt w self =
       Result (Returns false) w' self
         [Constructed reticulum; Stdout ("Failed to initialize Reticulum: " ++ exn_msg e)]).
Proof.
  split; [|split].
  - apply initialize_times_initialized.
  - intros o w' Hinit Hnew. cbn [RNSManager.initialize_times].
    rewrite (bind_run (initialize_first w w' self o Hinit Hnew)
               (bind_run
                  (initialize_times_initialized n w' (RNSManager.set_initialized true self)
                     eq_refl)
                  eq_refl)).
    reflexivity.
  - intros e w'. apply initialize_failed.
Qed.

(** C4.  When the identity file exists at the canonical path and
    [RNS.Identity.from_file] fails on it, by returning [None] or by raising,
    [create_identity] returns [None] to the caller.  The only calls it has
    made are the existence test and the load: it constructs no new identity
    and writes none to the file, and it stores no identity in the manager. *)
Theorem create_identity_corrupt_file (w w1 w2 : W) (self : RNSManager.t)
    (config_path : string) (found : value) (loaded : outcome value) :
  getattr rt w (VName "RNS.Reticulum") "configpath" = Some (VStr config_path) ->
  invoke rt (Func "os.path.exists" [VStr (identity_file_of config_path)] []) w
    = (Returns found, w1) ->
  truthy found = true ->
  invoke rt (Func "RNS.Identity.from_file" [VStr (identity_file_of config_path)] []) w1
    = (loaded, w2) ->
  (loaded = Returns VNone \/ exists e, loaded = Raises e) ->
  let r := RNSManager.create_identity rt w self in
  value_of r = Returns VNone /\
  world_of r = w2 /\
  self_of r = match loaded with
              | Returns _ => RNSManager.set_identity VNone self
              | Raises _ => self
              end /\
  existsb fabricates (events_of r) = false /\
  events_of r =
    ([Called (Func "os.path.exists" [VStr (identity_file_of config_path)] []);
      Called (Func "RNS.Identity.from_file" [VStr (identity_file_of config_path)] [])]
     ++ match loaded with
        | Returns _ => []
        | Raises e => [Stdout ("Failed to create/load identity: " ++ exn_msg e)]
        end)%list.
Proof.
  intros Hpath Hexists Hfound Hload Hfail r. subst r.
  unfold RNSManager.create_identity, identity_file_of in *.
  py_run. rewrite Hpath. py_run. rewrite Hexists. py_run. rewrite Hfound. py_run.
  rewrite Hload. destruct Hfail as [-> | [e ->]]; py_run; auto.
Qed.

End RNSFacts.

(** Three calls on a fresh manager: one Reticulum instance, three times [True]. *)
Lemma initialize_idempotent_witness :
  RNSManager.initialize_times (scripted quiet) 3 0 RNSManager.init =
    Result (Returns [true; true; true]) 1 (RNSManager.Mk VNone true) [Constructed reticulum].
Proof.
  exact (proj1 (proj2 (initialize_idempotent (scripted quiet) 2 0 RNSManager.init))
           0 1 eq_refl eq_refl).
Defined.

(** Against C3 as stated: where [RNS.Reticulum()] raises [OSError], two
    calls in a row both return [False], and the second call is no no-op: it
    runs the initialization again. *)
Lemma initialize_twice_without_network :
  RNSManager.initialize_times (scripted no_network) 2 0 RNSManager.init =
    Result (Returns [false; false]) 0 RNSManager.init
      [Constructed reticulum; Stdout "Failed to initialize Reticulum: no interfaces";
       Constructed reticulum; Stdout "Failed to initialize Reticulum: no interfaces"].
Proof. vm_compute. reflexivity. Qed.

Lemma create_identity_corrupt_file_witness :
  value_of (RNSManager.create_identity (scripted corrupt_identity) 0 RNSManager.init)
    = Returns VNone /\
  existsb fabricates
    (events_of (RNSManager.create_identity (scripted corrupt_identity) 0 RNSManager.init))
    = false.
Proof.
  pose proof (create_identity_corrupt_file (scripted corrupt_identity) 0 0 0
                RNSManager.init "/home/user/.reticulum/config" (VBool true)
                (Raises (Exn ValueError "invalid key data"))
                eq_refl eq_refl eq_refl eq_refl
                (or_intror (ex_intro _ _ eq_refl))) as H.
  exact (conj (proj1 H) (proj1 (proj2 (proj2 (proj2 H))))).
Defined.

(** ** lxmf.py *)

Section MessageFacts.
Context {W : Type} (rt : Runtime W).

Lemma check_length_rejects (h : bytes) (content title fields : value) (w : W)
    (self : LXMFManager.t) :
  length h <> 16 ->
  LXMFManager.check_length rt h content title fields w self =
    Result (Returns VNone) w self
      [Stdout ("Invalid destination hash length: " ++ pretty (length h))].
Proof.
  intros Hlen. unfold LXMFManager.check_length.
  replace (TRUNCATED_HASHLENGTH / 8) with 16 by reflexivity.
  destruct (Nat.eqb_spec (length h) 16) as [Heq|_]; [contradiction|].
  reflexivity.
Qed.

Lemma check_length_accepts (h : bytes) (content title fields : value) :
  length h = 16 ->
  LXMFManager.check_length rt h content title fields =
    LXMFManager.build_message rt h content title fields.
Proof.
  intros Hlen. unfold LXMFManager.check_length.
  replace (TRUNCATED_HASHLENGTH / 8) with 16 by reflexivity.
  rewrite Hlen. reflexivity.
Qed.

(** Past the length check, the first thing that happens is the lookup of
    the recipient, whatever it answers. *)
Lemma build_message_recalls_first (h : bytes) (content title fields : value) (w : W)
    (self : LXMFManager.t) :
  exists rest,
    events_of (LXMFManager.build_message rt h content title fields w self)
      = Called (recall_of h) :: rest.
Proof.
  unfold LXMFManager.build_message, bind at 1, ext at 1. fold (recall_of h).
  destruct (invoke rt (recall_of h) w) as [[v|e] w1].
  - rewrite events_after. eexists. reflexivity.
  - eexists. reflexivity.
Qed.

(** C1.  For every bytes address [h] whose length is not 16,
    [create_message] returns [None] and does nothing else than print one
    line: no call reaches a library, so no message is constructed, and the
    manager is unchanged.  On a manager with a registered destination the
    line is the invalid-length diagnostic.  For every [h] of length 16 on
    such a manager the length check passes: the run goes on to the
    recipient lookup, whatever the lookup will answer. *)
Theorem create_message_validates_length (h : bytes) (content title fields : value)
    (w : W) (self : LXMFManager.t) :
  (length h <> 16 ->
   LXMFManager.create_message rt (HashBytes h) content title fields w self =
     Result (Returns VNone) w self
       [Stdout (if truthy (LXMFManager.destination self)
                then "Invalid destination hash length: " ++ pretty (length h)
                else "LXMF destination not initialized")]) /\
  (length h = 16 ->
   truthy (LXMFManager.destination self) = true ->
   exists rest,
     events_of (LXMFManager.create_message rt (HashBytes h) content title fields w self)
       = Called (recall_of h) :: rest).
Proof.
  split.
  - intros Hlen. unfold LXMFManager.create_message, try_except, bind at 1, get_self.
    destruct (truthy (LXMFManager.destination self)); cbn [negb].
    + rewrite check_length_rejects by assumption. reflexivity.
    + reflexivity.
  - intros Hlen Hdest. unfold LXMFManager.create_message, try_except, bind at 1, get_self.
    rewrite Hdest. cbn [negb].
    rewrite check_length_accepts by assumption.
    destruct (build_message_recalls_first h content title fields w self) as [rest Hrest].
    destruct (LXMFManager.build_message rt h content title fields w self)
      as [[v|e] w1 s1 ev]; cbn in Hrest; subst ev; cbn [after app any_exception].
    + eexists. reflexivity.
    + rewrite events_after. eexists. reflexivity.
Qed.

(** C2, as amended.  On a manager with a registered destination, for
    every 16-byte address that [RNS.Identity.recall] does not resolve,
    [create_message] requests a path to that address and returns [None],
    the value it returns for every failure; the manager is unchanged.  What
    tells this case apart are the printed lines only. *)
Theorem create_message_unresolved (h : bytes) (content title fields : value)
    (w w1 w2 : W) (self : LXMFManager.t) (requested : outcome value) :
  truthy (LXMFManager.destination self) = true ->
  length h = 16 ->
  invoke rt (recall_of h) w = (Returns VNone, w1) ->
  invoke rt (request_path_of h) w1 = (requested, w2) ->
  LXMFManager.create_message rt (HashBytes h) content title fields w self =
    Result (Returns VNone) w2 self
      [Called (recall_of h);
       Stdout "Could not recall Identity for destination. Requesting path...";
       Called (request_path_of h);
       Stdout (match requested with
               | Returns _ => "Path requested. Waiting for announce..."
               | Raises e => "Failed to create LXMF message: " ++ exn_msg e
               end)].
Proof.
  intros Hdest Hlen Hrecall Hrequest.
  unfold LXMFManager.create_message, try_except, bind at 1, get_self.
  rewrite Hdest. cbn [negb after app].
  rewrite check_length_accepts by assumption.
  unfold LXMFManager.build_message. py_run. fold (recall_of h) (request_path_of h).
  rewrite Hrecall. py_run. cbn [is_none]. py_run. rewrite Hrequest.
  destruct requested; reflexivity.
Qed.

(** C5, as amended.  [send_message] returns [False] whenever the manager
    has no router, without handing anything over.  With a router it hands
    the message to [handle_outbound] and returns [True] exactly when that
    call returns: the result says that the router took the message, and
    nothing about its delivery.  Whether a destination is registered plays
    no part. *)
Theorem send_message_needs_router (message : value) (w : W) (self : LXMFManager.t) :
  (truthy (LXMFManager.router self) = false ->
   LXMFManager.send_message rt message w self =
     Result (Returns false) w self [Stdout "LXMF router not initialized"]) /\
  (truthy (LXMFManager.router self) = true ->
   let handed := invoke rt (handle_outbound_of (LXMFManager.router self) message) w in
   LXMFManager.send_message rt message w self =
     match fst handed with
     | Returns _ =>
         Result (Returns true) (snd handed) self
           [Called (handle_outbound_of (LXMFManager.router self) message)]
     | Raises e =>
         Result (Returns false) (snd handed) self
           [Called (handle_outbound_of (LXMFManager.router self) message);
            Stdout ("Failed to send LXMF message: " ++ exn_msg e)]
     end).
Proof.
  split; intros Hrouter; unfold LXMFManager.send_message; py_run;
    rewrite Hrouter; py_run.
  - reflexivity.
  - fold (handle_outbound_of (LXMFManager.router self) message).
    destruct (invoke rt (handle_outbound_of (LXMFManager.router self) message) w)
      as [[v|e] w1]; reflexivity.
Qed.

End MessageFacts.

Lemma create_message_validates_length_witness :
  LXMFManager.create_message (scripted quiet) (HashBytes [x01; x02; x03])
      (VStr "hello") (VStr "hi") VNone 0 registered
    = Result (Returns VNone) 0 registered [Stdout "Invalid destination hash length: 3"] /\
  exists rest,
    events_of (LXMFManager.create_message (scripted quiet) (HashBytes zero_hash)
                 (VStr "hello") (VStr "hi") VNone 0 registered)
      = Called (recall_of zero_hash) :: rest.
Proof.
  split.
  - apply (proj1 (create_message_validates_length (scripted quiet) [x01; x02; x03]
                    (VStr "hello") (VStr "hi") VNone 0 registered)).
    cbn. lia.
  - apply (proj2 (create_message_validates_length (scripted quiet) zero_hash
                    (VStr "hello") (VStr "hi") VNone 0 registered)); reflexivity.
Defined.

(** The scenario of the spec: sixteen zero bytes, nobody has announced them. *)
Lemma create_message_unresolved_witness :
  LXMFManager.create_message (scripted quiet) (HashBytes zero_hash)
      (VStr "hello") (VStr "hi") VNone 0 registered
    = Result (Returns VNone) 0 registered
        [Called (recall_of zero_hash);
         Stdout "Could not recall Identity for destination. Requesting path...";
         Called (request_path_of zero_hash);
         Stdout "Path requested. Waiting for announce..."].
Proof.
  exact (create_message_unresolved (scripted quiet) zero_hash (VStr "hello") (VStr "hi")
           VNone 0 0 0 registered (Returns VNone) eq_refl eq_refl eq_refl eq_refl).
Defined.

(** Against C2 as stated: the caller gets the same value, [None], for an
    unresolved recipient, for an address of the wrong length and for a
    message that the library refuses to construct. *)
Lemma unresolved_returns_what_other_failures_return :
  value_of (LXMFManager.create_message (scripted quiet) (HashBytes zero_hash)
              (VStr "hello") (VStr "hi") VNone 0 registered) = Returns VNone /\
  value_of (LXMFManager.create_message (scripted quiet) (HashBytes [x01; x02; x03])
              (VStr "hello") (VStr "hi") VNone 0 registered) = Returns VNone /\
  value_of (LXMFManager.create_message (scripted message_rejected) (HashBytes zero_hash)
              (VStr "hello") (VStr "hi") VNone 0 registered) = Returns VNone.
Proof. vm_compute. auto. Qed.

Lemma send_message_needs_router_witness :
  LXMFManager.send_message (scripted quiet) (VObj 5) 0 LXMFManager.init =
    Result (Returns false) 0 LXMFManager.init [Stdout "LXMF router not initialized"] /\
  LXMFManager.send_message (scripted quiet) (VObj 5) 0 registered =
    Result (Returns true) 0 registered [Called (handle_outbound_of (VObj 1) (VObj 5))].
Proof.
  split.
  - exact (proj1 (send_message_needs_router (scripted quiet) (VObj 5) 0 LXMFManager.init)
             eq_refl).
  - exact (proj2 (send_message_needs_router (scripted quiet) (VObj 5) 0 registered) eq_refl).
Defined.

(** Against C5 as stated: [initialize] creates the router and then fails to
    register the delivery identity, so no destination is registered; a
    [send_message] on that manager hands the message to the router and
    returns [True]. *)
Lemma send_succeeds_without_destination :
  let started :=
    LXMFManager.initialize (scripted registration_fails) (VObj 0) "rns_flet_app_messaging"
      (Some "/tmp/lxmf_storage") (Some "RNS Flet App") 1 LXMFManager.init in
  value_of started = Returns false /\
  LXMFManager.destination (self_of started) = VNone /\
  LXMFManager.router (self_of started) = VObj 1 /\
  LXMFManager.send_message (scripted registration_fails) (VObj 5)
      (world_of started) (self_of started)
    = Result (Returns true) 2 (self_of started)
        [Called (handle_outbound_of (VObj 1) (VObj 5))].
Proof. vm_compute. auto. Qed.

(** ** lxst.py *)

Section PipelineFacts.
Context {W : Type} (rt : Runtime W).

(** [stop_pipeline] does what the pipeline's own [stop] does, and reports
    whether it returned. *)
Lemma stop_pipeline_delegates (pipeline : value) (w : W) (self : LXSTManager.t) :
  LXSTManager.stop_pipeline rt pipeline w self =
    match invoke rt (stop_of pipeline) w with
    | (Returns _, w1) => Result (Returns true) w1 self [Called (stop_of pipeline)]
    | (Raises e, w1) =>
        Result (Returns false) w1 self
          [Called (stop_of pipeline); Stdout ("Failed to stop pipeline: " ++ exn_msg e)]
    end.
Proof.
  unfold LXSTManager.stop_pipeline. py_run. fold (stop_of pipeline).
  destruct (invoke rt (stop_of pipeline) w) as [[v|e] w1]; reflexivity.
Qed.

Lemma close_pipeline_unknown (pipeline_id : string) (w : W) (self : LXSTManager.t) :
  LXSTManager.pipelines self !! pipeline_id = None ->
  LXSTManager.close_pipeline rt pipeline_id w self = Result (Returns false) w self [].
Proof.
  intros Hnone. unfold LXSTManager.close_pipeline. py_run.
  rewrite Hnone. reflexivity.
Qed.

(** [close_pipeline] on a registered pipeline, case by case. *)
Lemma close_pipeline_registered (pipeline_id : string) (pipeline : value) (w : W)
    (self : LXSTManager.t) :
  LXSTManager.pipelines self !! pipeline_id = Some pipeline ->
  LXSTManager.close_pipeline rt pipeline_id w self =
    if match getattr rt w pipeline "active" with Some a => truthy a | None => false end
    then match invoke rt (stop_of pipeline) w with
         | (Returns _, w1) =>
             Result (Returns true) w1
               (LXSTManager.set_pipelines (delete pipeline_id (LXSTManager.pipelines self)) self)
               [Called (stop_of pipeline)]
         | (Raises e, w1) =>
             Result (Returns false) w1 self
               [Called (stop_of pipeline);
                Stdout ("Failed to close pipeline " ++ pipeline_id ++ ": " ++ exn_msg e)]
         end
    else Result (Returns true) w
           (LXSTManager.set_pipelines (delete pipeline_id (LXSTManager.pipelines self)) self)
           [].
Proof.
  intros Hp. unfold LXSTManager.close_pipeline. py_run. rewrite Hp. py_run.
  fold (stop_of pipeline).
  destruct (getattr rt w pipeline "active") as [a|] eqn:Ha; py_run;
    rewrite ?Ha; py_run; [|reflexivity].
  destruct (truthy a); py_run; [|reflexivity].
  destruct (invoke rt (stop_of pipeline) w) as [[v|e] w1]; py_run; reflexivity.
Qed.

Lemma close_pipeline_true_removes (pipeline_id : string) (w : W) (self : LXSTManager.t) :
  value_of (LXSTManager.close_pipeline rt pipeline_id w self) = Returns true ->
  LXSTManager.pipelines (self_of (LXSTManager.close_pipeline rt pipeline_id w self))
    !! pipeline_id = None.
Proof.
  destruct (LXSTManager.pipelines self !! pipeline_id) as [pipeline|] eqn:Hp.
  - rewrite (close_pipeline_registered _ _ _ _ Hp).
    destruct (match getattr rt w pipeline "active" with
              | Some a => truthy a | None => false end).
    + destruct (invoke rt (stop_of pipeline) w) as [[v|e] w1]; cbn [value_of self_of].
      * intros _. apply lookup_delete_eq.
      * discriminate.
    + intros _. apply lookup_delete_eq.
  - rewrite (close_pipeline_unknown _ _ _ Hp). discriminate.
Qed.

(** A [close_pipeline] that reports failure has left the manager alone. *)
Lemma close_pipeline_false_keeps (pipeline_id : string) (w : W) (self : LXSTManager.t) :
  value_of (LXSTManager.close_pipeline rt pipeline_id w self) = Returns false ->
  self_of (LXSTManager.close_pipeline rt pipeline_id w self) = self.
Proof.
  destruct (LXSTManager.pipelines self !! pipeline_id) as [pipeline|] eqn:Hp.
  - rewrite (close_pipeline_registered _ _ _ _ Hp).
    destruct (match getattr rt w pipeline "active" with
              | Some a => truthy a | None => false end).
    + destruct (invoke rt (stop_of pipeline) w) as [[v|e] w1]; cbn [value_of self_of].
      * discriminate.
      * reflexivity.
    + discriminate.
  - rewrite (close_pipeline_unknown _ _ _ Hp). reflexivity.
Qed.

(** C6.  For every id that is not in the registry, [close_pipeline]
    returns [False] and changes nothing: the world and the manager, the
    registry with it, are as before and nothing is logged.  In particular,
    after a [close_pipeline] that returned [True], a second one on the same
    id returns [False]. *)
Theorem close_pipeline_not_found (pipeline_id : string) (w : W) (self : LXSTManager.t) :
  (LXSTManager.pipelines self !! pipeline_id = None ->
   LXSTManager.close_pipeline rt pipeline_id w self = Result (Returns false) w self []) /\
  (let closed := LXSTManager.close_pipeline rt pipeline_id w self in
   value_of closed = Returns true ->
   LXSTManager.close_pipeline rt pipeline_id (world_of closed) (self_of closed) =
     Result (Returns false) (world_of closed) (self_of closed) []).
Proof.
  split.
  - apply close_pipeline_unknown.
  - intros closed Hclosed. apply close_pipeline_unknown.
    apply close_pipeline_true_removes. exact Hclosed.
Qed.

(** C10.  For every registered pipeline that is active, if its [stop]
    raises, [close_pipeline] returns [False] and the manager is as before:
    the pipeline is still in the registry under its id. *)
Theorem close_pipeline_stop_raises (pipeline_id : string) (pipeline active : value)
    (e : exn) (w w1 : W) (self : LXSTManager.t) :
  LXSTManager.pipelines self !! pipeline_id = Some pipeline ->
  getattr rt w pipeline "active" = Some active ->
  truthy active = true ->
  invoke rt (stop_of pipeline) w = (Raises e, w1) ->
  LXSTManager.close_pipeline rt pipeline_id w self =
    Result (Returns false) w1 self
      [Called (stop_of pipeline);
       Stdout ("Failed to close pipeline " ++ pipeline_id ++ ": " ++ exn_msg e)] /\
  LXSTManager.pipelines (self_of (LXSTManager.close_pipeline rt pipeline_id w self))
    !! pipeline_id = Some pipeline.
Proof.
  intros Hp Hattr Hactive Hstop.
  rewrite (close_pipeline_registered _ _ _ _ Hp), Hattr, Hactive, Hstop.
  split; [reflexivity | exact Hp].
Qed.

(** C8.  For every source kind other than "local", "remote" and "file",
    [create_audio_source] returns [None]; for every sink kind other than
    "local", "remote" and "null", so does [create_audio_sink].  In both
    cases the manager is unchanged, so nothing is registered, and no
    library is called: the run only prints the unknown kind. *)
Theorem create_unknown_kind (kind : string) (kwargs : list (string * value)) (w : W)
    (self : LXSTManager.t) :
  (kind <> "local" -> kind <> "remote" -> kind <> "file" ->
   LXSTManager.create_audio_source rt kind kwargs w self =
     Result (Returns VNone) w self [Stdout ("Unknown source type: " ++ kind)]) /\
  (kind <> "local" -> kind <> "remote" -> kind <> "null" ->
   LXSTManager.create_audio_sink rt kind kwargs w self =
     Result (Returns VNone) w self [Stdout ("Unknown sink type: " ++ kind)]).
Proof.
  split; intros H1 H2 H3.
  - unfold LXSTManager.create_audio_source.
    apply String.eqb_neq in H1, H2, H3. rewrite H1, H2, H3. reflexivity.
  - unfold LXSTManager.create_audio_sink.
    apply String.eqb_neq in H1, H2, H3. rewrite H1, H2, H3. reflexivity.
Qed.

End PipelineFacts.

(** C7.  With the pipeline of the LXST model: [stop_pipeline] on a
    pipeline that is already stopped returns [True] and leaves the pipeline,
    every other pipeline and the manager as they are.  For every pipeline,
    a second [stop_pipeline] returns what the first returned and leaves the
    world and the manager as the first left them. *)
Theorem stop_pipeline_idempotent (n : nat) (w : gmap nat LXSTPipeline.lifecycle)
    (self : LXSTManager.t) :
  (w !! n = Some LXSTPipeline.Stopped ->
   LXSTManager.stop_pipeline LXSTPipeline.runtime (VObj n) w self =
     Result (Returns true) w self [Called (stop_of (VObj n))]) /\
  (let once := LXSTManager.stop_pipeline LXSTPipeline.runtime (VObj n) w self in
   let twice :=
     LXSTManager.stop_pipeline LXSTPipeline.runtime (VObj n) (world_of once) (self_of once) in
   value_of twice = value_of once /\
   world_of twice = world_of once /\
   self_of twice = self_of once /\
   self_of once = self).
Proof.
  split.
  - intros Hstopped. rewrite stop_pipeline_delegates.
    cbn. rewrite Hstopped. cbn. rewrite insert_id by exact Hstopped. reflexivity.
  - cbv zeta. rewrite !stop_pipeline_delegates. cbn.
    destruct (w !! n) as [s|] eqn:Hs; cbn.
    + rewrite lookup_insert_eq. cbn. rewrite insert_insert_eq.
      destruct s; cbn; auto.
    + rewrite Hs. cbn. auto.
Qed.

Lemma close_pipeline_not_found_witness :
  LXSTManager.close_pipeline (scripted quiet) "pipeline_8" 0 one_pipeline =
    Result (Returns false) 0 one_pipeline [] /\
  (let closed := LXSTManager.close_pipeline (scripted quiet) "pipeline_7" 0 one_pipeline in
   LXSTManager.close_pipeline (scripted quiet) "pipeline_7" (world_of closed) (self_of closed)
     = Result (Returns false) (world_of closed) (self_of closed) []).
Proof.
  split.
  - apply (proj1 (close_pipeline_not_found (scripted quiet) "pipeline_8" 0 one_pipeline)).
    vm_compute. reflexivity.
  - apply (proj2 (close_pipeline_not_found (scripted quiet) "pipeline_7" 0 one_pipeline)).
    vm_compute. reflexivity.
Defined.

Lemma close_pipeline_stop_raises_witness :
  LXSTManager.close_pipeline (scripted stop_raises) "pipeline_7" 0 one_pipeline =
    Result (Returns false) 0 one_pipeline
      [Called (stop_of (VObj 7)); Stdout "Failed to close pipeline pipeline_7: device busy"].
Proof.
  apply (proj1 (close_pipeline_stop_raises (scripted stop_raises) "pipeline_7" (VObj 7)
                  (VBool true) (Exn RuntimeError "device busy") 0 0 one_pipeline
                  eq_refl eq_refl eq_refl eq_refl)).
Defined.

Lemma create_unknown_kind_witness :
  LXSTManager.create_audio_source (scripted quiet) "null" [] 0 LXSTManager.init =
    Result (Returns VNone) 0 LXSTManager.init [Stdout "Unknown source type: null"] /\
  LXSTManager.create_audio_sink (scripted quiet) "file" [] 0 LXSTManager.init =
    Result (Returns VNone) 0 LXSTManager.init [Stdout "Unknown sink type: file"].
Proof.
  split.
  - apply (proj1 (create_unknown_kind (scripted quiet) "null" [] 0 LXSTManager.init));
      discriminate.
  - apply (proj2 (create_unknown_kind (scripted quiet) "file" [] 0 LXSTManager.init));
      discriminate.
Defined.

Lemma stop_pipeline_idempotent_witness :
  LXSTManager.stop_pipeline LXSTPipeline.runtime (VObj 7)
      {[7 := LXSTPipeline.Stopped]} one_pipeline
    = Result (Returns true) {[7 := LXSTPipeline.Stopped]} one_pipeline
        [Called (stop_of (VObj 7))].
Proof.
  apply (proj1 (stop_pipeline_idempotent 7 {[7 := LXSTPipeline.Stopped]} one_pipeline)).
  vm_compute. reflexivity.
Defined.

(** ** app.py *)

Section CallbackFacts.
Context {W : Type} (rt : Runtime W).

Lemma keeps_decoded (app_data sender_name : value) :
  keeps_self (App.decoded_app_data rt app_data sender_name).
Proof. unfold App.decoded_app_data. auto 10 with keeps. Qed.

Lemma keeps_name_from (dests : list nat) (sender sender_name : value) :
  keeps_self (App.name_from rt dests sender sender_name).
Proof.
  induction dests as [|d rest IH]; cbn [App.name_from]; [apply keeps_ret|].
  apply keeps_bind; [apply keeps_hasattr|intros has_hash].
  apply keeps_bind; [destruct has_hash; auto with keeps|intros h].
  destruct (has_hash && py_eq h sender); [|exact IH].
  apply keeps_bind; [apply keeps_hasattr|intros has_name].
  apply keeps_bind; [destruct has_name; auto with keeps|intros display_name].
  destruct (has_name && truthy display_name); [apply keeps_ret|].
  apply keeps_bind; [apply keeps_hasattr|intros has_data].
  apply keeps_bind; [destruct has_data; auto with keeps|intros app_data].
  destruct (has_data && truthy app_data); [apply keeps_decoded|apply keeps_ret].
Qed.

Lemma keeps_resolve (sender : value) : keeps_self (App.resolve_sender_name rt sender).
Proof.
  unfold App.resolve_sender_name.
  apply keeps_try; [|auto with keeps].
  apply keeps_bind; [apply keeps_attr|intros dests].
  destruct (truthy dests); [|apply keeps_ret].
  destruct dests; auto using keeps_raise, keeps_name_from.
Qed.

(** The lookup of the sender's name never raises: it falls back to a name. *)
Lemma returns_resolve (sender : value) : returns (App.resolve_sender_name rt sender).
Proof.
  unfold App.resolve_sender_name. apply returns_try_any.
  intros e w s. eexists. reflexivity.
Qed.

Lemma keeps_hash_text (sender : value) : keeps_self (App.hash_text rt sender).
Proof. unfold App.hash_text. auto 10 with keeps. Qed.

Lemma returns_hash_text (sender : value) (w : W) (s : App.t) :
  is_object sender = false ->
  exists a, value_of (App.hash_text rt sender w s) = Returns a.
Proof. destruct sender; cbn; try discriminate; intros _; eexists; reflexivity. Qed.

Lemma keeps_probe (obj : value) (name : string) : keeps_self (App.probe rt obj name).
Proof. unfold App.probe. auto 10 with keeps. Qed.

Lemma returns_probe (obj : value) (name : string) : returns (App.probe rt obj name).
Proof.
  intros w s. unfold App.probe. py_run.
  destruct (getattr rt w obj name) eqn:Hv; py_run; rewrite ?Hv; py_run;
    eexists; reflexivity.
Qed.

Lemma read_sender_run (message : value) (w : W) (s : App.t) :
  App.read_sender rt message w s = Result (Returns (sender_of rt w message)) w s [].
Proof.
  unfold App.read_sender, sender_of. py_run.
  destruct (getattr rt w message "source_hash") eqn:Hhash; py_run; rewrite ?Hhash;
    py_run; [reflexivity|].
  destruct (getattr rt w message "source") eqn:Hsource; py_run; rewrite ?Hsource;
    reflexivity.
Qed.

Lemma keeps_read_sender (message : value) : keeps_self (App.read_sender rt message).
Proof. intros w s. rewrite read_sender_run. reflexivity. Qed.

Lemma keeps_describe (sender : value) : keeps_self (App.describe_sender rt sender).
Proof.
  unfold App.describe_sender. destruct (truthy sender); [|apply keeps_ret].
  apply keeps_bind; [apply keeps_resolve|intros a].
  apply keeps_bind; [apply keeps_hash_text|intros b]. apply keeps_ret.
Qed.

Lemma describe_sender_returns (sender : value) (w : W) (s : App.t) :
  is_object sender = false ->
  exists named, value_of (App.describe_sender rt sender w s) = Returns named.
Proof.
  intros Hplain. unfold App.describe_sender.
  destruct (truthy sender); [|eexists; reflexivity].
  unfold bind at 1.
  destruct (returns_resolve sender w s) as [name Hname].
  pose proof (keeps_resolve sender w s) as Hkeep.
  destruct (App.resolve_sender_name rt sender w s) as [o w1 s1 ev1].
  cbn in Hname, Hkeep. subst o s1. rewrite value_after.
  unfold bind at 1.
  destruct (returns_hash_text sender w1 s Hplain) as [text Htext].
  destruct (App.hash_text rt sender w1 s) as [o w2 s2 ev2].
  cbn in Htext. subst o. rewrite value_after. eexists. reflexivity.
Qed.

(** Handing the redraw to the page's thread touches no global. *)
Lemma keeps_notify : keeps_self
  (self <- get_self ;;
   if truthy (App.page_ref self) then
     ext rt (Method (App.page_ref self) "run_thread" [VName "update_ui"] []) ;;; ret tt
   else @ret W App.t unit tt).
Proof. auto 10 with keeps. Qed.

(** C9.  Whatever the message and the libraries do, a run of the
    callback leaves [messages_list] as it was with at most one record put
    in front: the records that were in the list are all still there,
    unchanged and in their order, and [page_ref] is untouched.  When the
    sender's address read off the message is data (bytes as LXMF messages
    carry it, or missing) and not a library object, the callback puts
    exactly one new record at the head; the record carries that address and
    has no [is_sent] key. *)
Theorem message_callback_inserts_at_head (message : value) (w : W) (self : App.t) :
  let after_callback := self_of (App.message_callback rt message w self) in
  (exists inserted,
     App.messages_list after_callback = (inserted ++ App.messages_list self)%list /\
     length inserted <= 1) /\
  App.page_ref after_callback = App.page_ref self /\
  (is_object (sender_of rt w message) = false ->
   exists msg,
     App.messages_list after_callback = msg :: App.messages_list self /\
     App.sender_hash_bytes msg = sender_of rt w message /\
     App.is_sent msg = None).
Proof.
  cbv zeta. unfold App.message_callback.
  set (tail := fun (msg : App.msg_data) =>
         modify_self (fun self => App.set_messages_list (msg :: App.messages_list self) self) ;;;
         self <- get_self ;;
         if truthy (App.page_ref self) then
           ext rt (Method (App.page_ref self) "run_thread" [VName "update_ui"] []) ;;; ret tt
         else @ret W App.t unit tt).
  assert (Htail : forall msg w',
            self_of (tail msg w' self)
              = App.set_messages_list (msg :: App.messages_list self) self).
  { intros msg w'. unfold tail, bind at 1, modify_self. rewrite self_after.
    apply keeps_notify. }
  split; [|split].
  - apply bind_post; [apply keeps_read_sender| exists []; cbn; split; [reflexivity|lia] |].
    intros sender w1.
    apply bind_post; [apply keeps_describe| exists []; cbn; split; [reflexivity|lia] |].
    intros named w2.
    apply bind_post; [apply keeps_probe| exists []; cbn; split; [reflexivity|lia] |].
    intros content_raw w3.
    apply bind_post; [apply keeps_probe| exists []; cbn; split; [reflexivity|lia] |].
    intros title_raw w4.
    match goal with |- context [self_of (?m w4 self)] =>
      change (self_of (m w4 self)) with (self_of (tail
        {| App.sender_name := fst named; App.sender_hash := snd named;
           App.sender_hash_bytes := sender; App.title := App.text_of rt title_raw;
           App.content := App.text_of rt content_raw; App.is_sent := None |} w4 self))
    end.
    rewrite Htail. eexists [_]. cbn. split; [reflexivity|lia].
  - apply bind_post; [apply keeps_read_sender| reflexivity |]. intros sender w1.
    apply bind_post; [apply keeps_describe| reflexivity |]. intros named w2.
    apply bind_post; [apply keeps_probe| reflexivity |]. intros content_raw w3.
    apply bind_post; [apply keeps_probe| reflexivity |]. intros title_raw w4.
    match goal with |- context [self_of (?m w4 self)] =>
      change (self_of (m w4 self)) with (self_of (tail
        {| App.sender_name := fst named; App.sender_hash := snd named;
           App.sender_hash_bytes := sender; App.title := App.text_of rt title_raw;
           App.content := App.text_of rt content_raw; App.is_sent := None |} w4 self))
    end.
    rewrite Htail. reflexivity.
  - intros Hplain.
    unfold bind at 1. rewrite read_sender_run, self_after.
    destruct (bind_self_returns (App.describe_sender rt (sender_of rt w message))
                (fun named =>
                   content_raw <- App.probe rt message "content" ;;
                   title_raw <- App.probe rt message "title" ;;
                   tail {| App.sender_name := fst named; App.sender_hash := snd named;
                           App.sender_hash_bytes := sender_of rt w message;
                           App.title := App.text_of rt title_raw;
                           App.content := App.text_of rt content_raw;
                           App.is_sent := None |})
                w self (keeps_describe _) (describe_sender_returns _ w self Hplain))
      as (named & w2 & Hdescribe).
    unfold tail in Hdescribe. rewrite Hdescribe. clear Hdescribe.
    destruct (bind_self_returns (App.probe rt message "content")
                (fun content_raw =>
                   title_raw <- App.probe rt message "title" ;;
                   tail {| App.sender_name := fst named; App.sender_hash := snd named;
                           App.sender_hash_bytes := sender_of rt w message;
                           App.title := App.text_of rt title_raw;
                           App.content := App.text_of rt content_raw;
                           App.is_sent := None |})
                w2 self (keeps_probe _ _) (returns_probe _ _ w2 self))
      as (content_raw & w3 & Hcontent).
    unfold tail in Hcontent. rewrite Hcontent. clear Hcontent.
    destruct (bind_self_returns (App.probe rt message "title")
                (fun title_raw =>
                   tail {| App.sender_name := fst named; App.sender_hash := snd named;
                           App.sender_hash_bytes := sender_of rt w message;
                           App.title := App.text_of rt title_raw;
                           App.content := App.text_of rt content_raw;
                           App.is_sent := None |})
                w3 self (keeps_probe _ _) (returns_probe _ _ w3 self))
      as (title_raw & w4 & Htitle).
    rewrite Htail in Htitle. unfold tail in Htitle. rewrite Htitle.
    eexists. split; [reflexivity|]. split; reflexivity.
Qed.

End CallbackFacts.

(** A message from "Bob" arrives while the list holds one earlier echo. *)
Lemma message_callback_inserts_at_head_witness :
  exists msg,
    App.messages_list
      (self_of (App.message_callback (scripted inbound) (VObj 4) 0
                  (App.Mk [earlier] (VObj 8))))
      = [msg; earlier] /\
    App.sender_hash_bytes msg = VBytes (repeat xab 16) /\
    App.is_sent msg = None.
Proof.
  exact (proj2 (proj2 (message_callback_inserts_at_head (scripted inbound) (VObj 4) 0
                         (App.Mk [earlier] (VObj 8))))
           eq_refl).
Defined.

(** * Further properties *)

(** ** The monad, continued *)

Section PyFactsMore.
Context {W S : Type}.

Lemma keeps_new (rt : Runtime W) (c : ctor) : keeps_self (@new W S rt c).
Proof. intros w s. unfold new. destruct (construct rt c w) as [[n|e] w1]; reflexivity. Qed.


(** A handler that prints a line and returns the failure value, returns. *)
Lemma returns_print_ret {A : Type} (a : A) (line : string) :
  @returns W S A (print line ;;; ret a).
Proof. intros w s. eexists. reflexivity. Qed.

Lemma bind_self_value {A B : Type} (m : Py W S A) (k : A -> Py W S B) (w : W) (s : S)
    (a : A) :
  keeps_self m -> value_of (m w s) = Returns a ->
  exists w', self_of (bind m k w s) = self_of (k a w' s).
Proof.
  intros Hm Ha. unfold bind. specialize (Hm w s).
  destruct (m w s) as [[a'|e] w1 s1 ev]; cbn in *; subst s1; [|discriminate].
  injection Ha as ->. exists w1. apply self_after.
Qed.

End PyFactsMore.

#[local] Hint Resolve keeps_new : keeps.

(** ** Strings and paths *)

Lemma append_cons (x : ascii) (a b : string) : String x a ++ b = String x (a ++ b).
Proof. reflexivity. Qed.

Lemma append_assoc (a b c : string) : (a ++ b) ++ c = a ++ (b ++ c).
Proof.
  induction a as [|x a IH]; [reflexivity|]. rewrite !append_cons, IH. reflexivity.
Qed.

Lemma list_ascii_app (a b : string) :
  list_ascii_of_string (a ++ b) = (list_ascii_of_string a ++ list_ascii_of_string b)%list.
Proof. induction a as [|c a IH]; simpl; [reflexivity | f_equal; exact IH]. Qed.

Lemma drop_while_skips {A : Type} (p : A -> bool) (l rest : list A) :
  forallb p l = true -> drop_while p (l ++ rest)%list = drop_while p rest.
Proof.
  induction l as [|x l IH]; cbn; [reflexivity|].
  intros H. apply andb_prop in H as [Hx Hl]. rewrite Hx. apply IH. exact Hl.
Qed.

Lemma forallb_reversed {A : Type} (p : A -> bool) (l : list A) :
  forallb p (rev l) = forallb p l.
Proof.
  induction l as [|x l IH]; [reflexivity|].
  cbn [rev forallb]. rewrite forallb_app, IH. cbn [forallb].
  rewrite andb_true_r. apply andb_comm.
Qed.

Lemma os_path_join_plain (a b : string) :
  String.prefix "/" b = false -> ends_with_slash a = false -> a <> "" ->
  os_path_join a b = a ++ "/" ++ b.
Proof.
  intros Hb Ha Hne. unfold os_path_join, ends_with_slash in *. rewrite Hb.
  destruct (String.eqb_spec a "") as [->|_]; [contradiction|].
  destruct (rev (list_ascii_of_string a)) as [|c l] eqn:Hrev.
  - destruct a; [contradiction|]. cbn in Hrev.
    apply (f_equal (@length ascii)) in Hrev. rewrite length_app in Hrev. cbn in Hrev. lia.
  - rewrite Ha. reflexivity.
Qed.

(** The directory of a file [name] in [root] is [root], or the root
    directory when [root] is empty. *)
Lemma os_path_dirname_file (root name : string) :
  ends_with_slash root = false -> has_slash name = false ->
  os_path_dirname (root ++ "/" ++ name) = if String.eqb root "" then "/" else root.
Proof.
  intros Hroot Hname. unfold os_path_dirname, ends_with_slash, has_slash in *.
  rewrite !list_ascii_app, !rev_app_distr. cbn [list_ascii_of_string rev app].
  rewrite <- app_assoc. cbn [app].
  rewrite drop_while_skips.
  2:{ rewrite forallb_reversed. clear -Hname.
      induction (list_ascii_of_string name) as [|c l IH]; [reflexivity|].
      cbn in *. apply orb_false_elim in Hname as [Hc Hl]. rewrite Hc. cbn. auto. }
  cbn [drop_while is_slash]. cbn.
  destruct (rev (list_ascii_of_string root)) as [|c l] eqn:Hrev.
  - cbn. destruct root as [|c root]; [reflexivity|].
    cbn in Hrev. apply (f_equal (@length ascii)) in Hrev.
    rewrite length_app in Hrev. cbn in Hrev. lia.
  - cbn [forallb]. rewrite Hroot. cbn [andb drop_while]. rewrite Hroot.
    rewrite <- Hrev, rev_involutive, string_of_list_ascii_of_string.
    destruct (String.eqb_spec root "") as [->|_]; [discriminate Hrev | reflexivity].
Qed.

(** X4.  The identity file lies beside the configuration file: for a
    configuration file [name] in a directory [root] that is written without
    a trailing slash, [create_identity] looks for the identity at
    [root/storage/identity]. *)
Theorem identity_file_beside_config (root name : string) :
  ends_with_slash root = false -> has_slash name = false ->
  identity_file_of (root ++ "/" ++ name) = root ++ "/storage/identity".
Proof.
  intros Hroot Hname. unfold identity_file_of.
  rewrite os_path_dirname_file by assumption.
  destruct (String.eqb_spec root "") as [->|Hne]; [reflexivity|].
  rewrite (os_path_join_plain root "storage") by (auto; reflexivity).
  rewrite os_path_join_plain.
  - rewrite append_assoc. reflexivity.
  - reflexivity.
  - unfold ends_with_slash. rewrite !list_ascii_app, !rev_app_distr. reflexivity.
  - destruct root; [contradiction | discriminate].
Qed.

Lemma identity_file_beside_config_witness :
  identity_file_of "/home/user/.reticulum/config" = "/home/user/.reticulum/storage/identity".
Proof.
  exact (identity_file_beside_config "/home/user/.reticulum" "config" eq_refl eq_refl).
Defined.

(** The two hex digits of a byte, read back. *)
Lemma fromhex_byte (x : byte) (rest : list ascii) :
  fromhex_chars (hex_digit (Byte.to_N x / 16) :: hex_digit (Byte.to_N x mod 16) :: rest)
    = match fromhex_chars rest with
      | Some tl => Some (x :: tl)
      | None => None
      end.
Proof. destruct x; reflexivity. Qed.

(** [bytes.fromhex(b.hex()) == b] *)
Lemma fromhex_hex (b : bytes) : bytes_fromhex (bytes_hex b) = Some b.
Proof.
  unfold bytes_fromhex. induction b as [|x b IH]; [reflexivity|].
  cbn [bytes_hex list_ascii_of_string]. rewrite fromhex_byte, IH. reflexivity.
Qed.

(** ** rns.py, continued *)

Section RNSFactsMore.
Context {W : Type} (rt : Runtime W).

(** X1.  An identity file that exists is never replaced: whatever
    [RNS.Identity.from_file] does with it, [create_identity] constructs no
    identity and writes none; it returns what the load returned, or [None]
    when the load raised, and the only change to the world is the load's. *)
Theorem create_identity_keeps_existing_file (w w1 : W) (self : RNSManager.t)
    (config_path : string) (found : value) :
  getattr rt w (VName "RNS.Reticulum") "configpath" = Some (VStr config_path) ->
  invoke rt (exists_of (identity_file_of config_path)) w = (Returns found, w1) ->
  truthy found = true ->
  let loaded := invoke rt (from_file_of (identity_file_of config_path)) w1 in
  let r := RNSManager.create_identity rt w self in
  existsb fabricates (events_of r) = false /\
  world_of r = snd loaded /\
  value_of r = Returns (match fst loaded with Returns v => v | Raises _ => VNone end) /\
  self_of r = match fst loaded with
              | Returns v => RNSManager.set_identity v self
              | Raises _ => self
              end.
Proof.
  intros Hpath Hexists Hfound loaded r. subst loaded r.
  unfold RNSManager.create_identity, exists_of, from_file_of, identity_file_of in *.
  py_run. rewrite Hpath. py_run. rewrite Hexists. py_run. rewrite Hfound. py_run.
  destruct (invoke rt _ w1) as [[v|e] w2]; py_run; auto.
Qed.

(** X2.  Where no identity file exists and the libraries succeed,
    [create_identity] generates an identity, creates the storage directory,
    writes the identity to the very path it tested, in this order, stores
    it in the manager and returns it. *)
Theorem create_identity_generates_and_persists (w w1 w2 w3 w4 : W) (self : RNSManager.t)
    (config_path : string) (found made written : value) (n : nat) :
  getattr rt w (VName "RNS.Reticulum") "configpath" = Some (VStr config_path) ->
  invoke rt (exists_of (identity_file_of config_path)) w = (Returns found, w1) ->
  truthy found = false ->
  construct rt new_identity w1 = (Returns n, w2) ->
  invoke rt (makedirs_of (VStr (storage_dir_of config_path))) w2 = (Returns made, w3) ->
  invoke rt (to_file_of (VObj n) (identity_file_of config_path)) w3 = (Returns written, w4) ->
  RNSManager.create_identity rt w self =
    Result (Returns (VObj n)) w4 (RNSManager.set_identity (VObj n) self)
      [Called (exists_of (identity_file_of config_path));
       Constructed new_identity;
       Called (makedirs_of (VStr (storage_dir_of config_path)));
       Called (to_file_of (VObj n) (identity_file_of config_path))].
Proof.
  intros Hpath Hexists Hfound Hnew Hdirs Hwrite.
  unfold RNSManager.create_identity, exists_of, makedirs_of, to_file_of, new_identity,
    identity_file_of, storage_dir_of in *.
  py_run. rewrite Hpath. py_run. rewrite Hexists. py_run. rewrite Hfound. py_run.
  rewrite Hnew. py_run. rewrite Hdirs. py_run.
  cbn [RNSManager.identity RNSManager.set_identity].
  rewrite Hwrite. py_run. reflexivity.
Qed.

(** X3.  [create_identity] is not undone by a failed write: when the new
    identity cannot be persisted, the call returns [None], yet the manager
    holds the generated identity, and [get_identity_hash] answers with its
    hash. *)
Theorem create_identity_persist_failure (w w1 w2 w3 w4 : W) (self : RNSManager.t)
    (config_path : string) (found made : value) (n : nat) (e : exn) :
  getattr rt w (VName "RNS.Reticulum") "configpath" = Some (VStr config_path) ->
  invoke rt (exists_of (identity_file_of config_path)) w = (Returns found, w1) ->
  truthy found = false ->
  construct rt new_identity w1 = (Returns n, w2) ->
  invoke rt (makedirs_of (VStr (storage_dir_of config_path))) w2 = (Returns made, w3) ->
  invoke rt (to_file_of (VObj n) (identity_file_of config_path)) w3 = (Raises e, w4) ->
  let r := RNSManager.create_identity rt w self in
  value_of r = Returns VNone /\
  RNSManager.identity (self_of r) = VObj n /\
  value_of (RNSManager.get_identity_hash rt (world_of r) (self_of r))
    = match getattr rt w4 (VObj n) "hash" with
      | Some h => Returns h
      | None => Raises (Exn AttributeError "hash")
      end.
Proof.
  intros Hpath Hexists Hfound Hnew Hdirs Hwrite r. subst r.
  unfold RNSManager.create_identity, RNSManager.get_identity_hash, exists_of, makedirs_of,
    to_file_of, new_identity, identity_file_of, storage_dir_of in *.
  py_run. rewrite Hpath. py_run. rewrite Hexists. py_run. rewrite Hfound. py_run.
  rewrite Hnew. py_run. rewrite Hdirs. py_run.
  cbn [RNSManager.identity RNSManager.set_identity].
  rewrite Hwrite. py_run. cbn [RNSManager.identity RNSManager.set_identity truthy]. py_run.
  destruct (getattr rt w4 (VObj n) "hash"); auto.
Qed.

(** X5.  [initialize] catches [OSError] and [ValueError] only: any other
    exception of [RNS.Reticulum()] reaches the caller, nothing is printed
    and the manager stays uninitialized. *)
Theorem initialize_lets_other_exceptions_through (w w' : W) (self : RNSManager.t) (e : exn) :
  RNSManager.initialized self = false ->
  construct rt reticulum w = (Raises e, w') ->
  os_or_value_error e = false ->
  RNSManager.initialize rt w self = Result (Raises e) w' self [Constructed reticulum].
Proof.
  intros Hinit Hnew He. unfold RNSManager.initialize. py_run. rewrite Hinit. py_run.
  fold reticulum. rewrite Hnew. py_run. rewrite He. reflexivity.
Qed.

(** X6.  [get_status] on a manager that is not initialized asks no
    library and reports disconnected, no interfaces, no peers and no
    identity hash, also when an identity is loaded.  On an initialized
    manager it reports the same when [is_connected] answers false; and it
    has no handler: an exception of [is_connected] reaches the caller. *)
Theorem get_status_disconnected (w : W) (self : RNSManager.t) :
  (RNSManager.initialized self = false ->
   RNSManager.get_status rt w self =
     Result (Returns (RNSManager.Status false 0 0 VNone)) w self []) /\
  (forall (up : value) (w1 : W),
     RNSManager.initialized self = true ->
     invoke rt is_connected_call w = (Returns up, w1) ->
     truthy up = false ->
     RNSManager.get_status rt w self =
       Result (Returns (RNSManager.Status false 0 0 VNone)) w1 self
         [Called is_connected_call]) /\
  (forall (e : exn) (w1 : W),
     RNSManager.initialized self = true ->
     invoke rt is_connected_call w = (Raises e, w1) ->
     RNSManager.get_status rt w self = Result (Raises e) w1 self [Called is_connected_call]).
Proof.
  unfold RNSManager.get_status, is_connected_call. split; [|split].
  - intros Hinit. py_run. rewrite Hinit. py_run. reflexivity.
  - intros up w1 Hinit Hcall Hup. py_run. rewrite Hinit. py_run. rewrite Hcall. py_run.
    rewrite Hup. reflexivity.
  - intros e w1 Hinit Hcall. py_run. rewrite Hinit. py_run. rewrite Hcall. reflexivity.
Qed.

(** X7.  The two ways [load_identity] fails differ in what they leave
    behind.  When [RNS.Identity.from_bytes] returns [None], the identity the
    manager held is replaced by [None], so [get_identity_hash] answers
    [None] from then on.  When it raises, the manager keeps the identity it
    had.  Both return [None]. *)
Theorem load_identity_failures (data : value) (w w1 : W) (self : RNSManager.t) :
  (invoke rt (from_bytes_of data) w = (Returns VNone, w1) ->
   let r := RNSManager.load_identity rt data w self in
   value_of r = Returns VNone /\
   RNSManager.identity (self_of r) = VNone /\
   RNSManager.get_identity_hash rt (world_of r) (self_of r)
     = Result (Returns VNone) w1 (self_of r) []) /\
  (forall e : exn,
     invoke rt (from_bytes_of data) w = (Raises e, w1) ->
     let r := RNSManager.load_identity rt data w self in
     value_of r = Returns VNone /\
     self_of r = self /\
     events_of r = [Called (from_bytes_of data);
                    Stdout ("Failed to load identity: " ++ exn_msg e)]).
Proof.
  unfold RNSManager.load_identity, RNSManager.get_identity_hash, from_bytes_of. split.
  - intros Hcall. py_run. rewrite Hcall. py_run. auto.
  - intros e Hcall. py_run. rewrite Hcall. py_run. auto.
Qed.

(** X8.  [create_identity], [load_identity] and [save_identity] never let
    an exception of a library reach the caller, and [save_identity] never
    changes the manager. *)
Theorem identity_operations_never_raise :
  returns (RNSManager.create_identity rt) /\
  (forall data, returns (RNSManager.load_identity rt data)) /\
  returns (RNSManager.save_identity rt) /\
  keeps_self (RNSManager.save_identity rt).
Proof.
  split; [|split; [|split]].
  - apply returns_try_any. intros e. apply returns_print_ret.
  - intros data. apply returns_try_any. intros e. apply returns_print_ret.
  - apply returns_try_any. intros e. apply returns_print_ret.
  - unfold RNSManager.save_identity. auto 10 with keeps.
Qed.

End RNSFactsMore.

Lemma create_identity_keeps_existing_file_witness :
  RNSManager.create_identity (scripted stored_identity) 0 RNSManager.init
    = Result (Returns (VObj 5)) 0 (RNSManager.Mk (VObj 5) false)
        [Called (exists_of "/home/user/.reticulum/storage/identity");
         Called (from_file_of "/home/user/.reticulum/storage/identity")] /\
  existsb fabricates
    (events_of (RNSManager.create_identity (scripted stored_identity) 0 RNSManager.init))
    = false.
Proof.
  split; [reflexivity|].
  exact (proj1 (create_identity_keeps_existing_file (scripted stored_identity) 0 0
                  RNSManager.init "/home/user/.reticulum/config" (VBool true)
                  eq_refl eq_refl eq_refl)).
Defined.

Lemma create_identity_generates_and_persists_witness :
  RNSManager.create_identity (scripted fresh_install) 0 RNSManager.init
    = Result (Returns (VObj 0)) 1 (RNSManager.Mk (VObj 0) false)
        [Called (exists_of "/home/user/.reticulum/storage/identity");
         Constructed new_identity;
         Called (makedirs_of (VStr "/home/user/.reticulum/storage"));
         Called (to_file_of (VObj 0) "/home/user/.reticulum/storage/identity")].
Proof.
  exact (create_identity_generates_and_persists (scripted fresh_install) 0 0 1 1 1
           RNSManager.init "/home/user/.reticulum/config" (VBool false) VNone VNone 0
           eq_refl eq_refl eq_refl eq_refl eq_refl eq_refl).
Defined.

Lemma create_identity_persist_failure_witness :
  value_of (RNSManager.create_identity (scripted read_only_storage) 0 RNSManager.init)
    = Returns VNone /\
  RNSManager.identity
    (self_of (RNSManager.create_identity (scripted read_only_storage) 0 RNSManager.init))
    = VObj 0.
Proof.
  pose proof (create_identity_persist_failure (scripted read_only_storage) 0 0 1 1 1
                RNSManager.init "/home/user/.reticulum/config" (VBool false) VNone 0
                (Exn OSError "read-only file system")
                eq_refl eq_refl eq_refl eq_refl eq_refl eq_refl) as H.
  exact (conj (proj1 H) (proj1 (proj2 H))).
Defined.

Lemma initialize_lets_other_exceptions_through_witness :
  RNSManager.initialize (scripted misconfigured) 0 RNSManager.init
    = Result (Raises (Exn TypeError "bad configuration")) 0 RNSManager.init
        [Constructed reticulum].
Proof.
  exact (initialize_lets_other_exceptions_through (scripted misconfigured) 0 0
           RNSManager.init (Exn TypeError "bad configuration") eq_refl eq_refl eq_refl).
Defined.

Lemma get_status_disconnected_witness :
  RNSManager.get_status (scripted quiet) 0 (RNSManager.Mk (VObj 5) false)
    = Result (Returns (RNSManager.Status false 0 0 VNone)) 0 (RNSManager.Mk (VObj 5) false)
        [] /\
  RNSManager.get_status (scripted quiet) 0 (RNSManager.Mk (VObj 5) true)
    = Result (Returns (RNSManager.Status false 0 0 VNone)) 0 (RNSManager.Mk (VObj 5) true)
        [Called is_connected_call].
Proof.
  split.
  - exact (proj1 (get_status_disconnected (scripted quiet) 0 (RNSManager.Mk (VObj 5) false))
             eq_refl).
  - exact (proj1 (proj2 (get_status_disconnected (scripted quiet) 0
                           (RNSManager.Mk (VObj 5) true)))
             VNone 0 eq_refl eq_refl eq_refl).
Defined.

Lemma load_identity_failures_witness :
  RNSManager.identity
    (self_of (RNSManager.load_identity (scripted quiet) (VBytes [x00]) 0
                (RNSManager.Mk (VObj 5) true)))
    = VNone /\
  self_of (RNSManager.load_identity (scripted bad_key_bytes) (VBytes [x00]) 0
             (RNSManager.Mk (VObj 5) true))
    = RNSManager.Mk (VObj 5) true.
Proof.
  split.
  - exact (proj1 (proj2 (proj1 (load_identity_failures (scripted quiet) (VBytes [x00]) 0 0
                                  (RNSManager.Mk (VObj 5) true))
                           eq_refl))).
  - exact (proj1 (proj2 (proj2 (load_identity_failures (scripted bad_key_bytes)
                                  (VBytes [x00]) 0 0 (RNSManager.Mk (VObj 5) true))
                           (Exn ValueError "invalid key data") eq_refl))).
Defined.

(** ** lxmf.py, continued *)

Section MessageFactsMore.
Context {W : Type} (rt : Runtime W).

(** What [initialize] leaves behind, by outcome. *)
Lemma initialize_outcomes (identity_arg : value) (destination_name : string)
    (storage_path_arg display_name : option string) (w : W) (self : LXMFManager.t) :
  let r := LXMFManager.initialize rt identity_arg destination_name storage_path_arg
             display_name w self in
  (value_of r = Returns true /\
   truthy (LXMFManager.router (self_of r)) = true /\
   truthy (LXMFManager.destination (self_of r)) = true /\
   LXMFManager.identity (self_of r) = identity_arg) \/
  (value_of r = Returns false /\
   LXMFManager.identity (self_of r) = LXMFManager.identity self /\
   (truthy (LXMFManager.router (self_of r)) = true \/
    (LXMFManager.router (self_of r) = LXMFManager.router self /\
     LXMFManager.destination (self_of r) = LXMFManager.destination self))).
Proof.
  cbv zeta. unfold LXMFManager.initialize.
  destruct storage_path_arg as [p|]; py_auto;
    cbn [LXMFManager.router LXMFManager.destination LXMFManager.identity
         LXMFManager.storage_path LXMFManager.set_router LXMFManager.set_destination
         LXMFManager.set_identity LXMFManager.set_storage_path truthy] in *.
  all: try (left; repeat split; auto; fail).
  all: right; repeat split; auto.
Qed.

(** X9.  [initialize] returns [True] or [False] and nothing else.  After
    [True] the manager has a router and a delivery destination, and its
    identity is the one passed in; after [False] the manager's identity is
    the one it had before the call. *)
Theorem initialize_postcondition (identity_arg : value) (destination_name : string)
    (storage_path_arg display_name : option string) (w : W) (self : LXMFManager.t) :
  let r := LXMFManager.initialize rt identity_arg destination_name storage_path_arg
             display_name w self in
  (value_of r = Returns true ->
   truthy (LXMFManager.router (self_of r)) = true /\
   truthy (LXMFManager.destination (self_of r)) = true /\
   LXMFManager.identity (self_of r) = identity_arg) /\
  (value_of r <> Returns true ->
   value_of r = Returns false /\
   LXMFManager.identity (self_of r) = LXMFManager.identity self).
Proof.
  pose proof (initialize_outcomes identity_arg destination_name storage_path_arg
                display_name w self) as H.
  cbv zeta in *. destruct H as [(Hv & Hr & Hd & Hi) | (Hv & Hi & _)]; rewrite Hv.
  - split; [auto | intros Hne; contradiction].
  - split; [discriminate | auto].
Qed.

Lemma initialize_routed (identity_arg : value) (destination_name : string)
    (storage_path_arg display_name : option string) (w : W) (self : LXMFManager.t) :
  routed self ->
  routed (self_of (LXMFManager.initialize rt identity_arg destination_name storage_path_arg
                     display_name w self)).
Proof.
  intros Hself.
  pose proof (initialize_outcomes identity_arg destination_name storage_path_arg
                display_name w self) as H.
  cbv zeta in H. unfold routed in *.
  destruct H as [(_ & Hr & _) | (_ & _ & [Hr | [Hr Hd]])]; auto.
  rewrite Hr, Hd. exact Hself.
Qed.

Lemma keeps_build_message (h : bytes) (content title fields : value) :
  keeps_self (LXMFManager.build_message rt h content title fields).
Proof. unfold LXMFManager.build_message. auto 20 with keeps. Qed.

Lemma keeps_create_message (destination_hash : hash_arg) (content title fields : value) :
  keeps_self (LXMFManager.create_message rt destination_hash content title fields).
Proof.
  unfold LXMFManager.create_message, LXMFManager.check_length.
  pose proof keeps_build_message.
  auto 20 with keeps.
Qed.

Lemma keeps_send_message (message : value) :
  keeps_self (LXMFManager.send_message rt message).
Proof. unfold LXMFManager.send_message. auto 20 with keeps. Qed.

Lemma keeps_announce : keeps_self (LXMFManager.announce rt).
Proof. unfold LXMFManager.announce. auto 20 with keeps. Qed.

Lemma lxmf_step_routed (st : W * LXMFManager.t) (op : lxmf_op) :
  routed (snd st) -> routed (snd (lxmf_step rt st op)).
Proof.
  intros Hst. destruct op; cbn [lxmf_step snd].
  - apply initialize_routed. exact Hst.
  - rewrite keeps_create_message. exact Hst.
  - rewrite keeps_send_message. exact Hst.
  - rewrite keeps_announce. exact Hst.
Qed.

Lemma lxmf_run_routed (ops : list lxmf_op) (st : W * LXMFManager.t) :
  routed (snd st) -> routed (snd (lxmf_run rt ops st)).
Proof.
  revert st. induction ops as [|op ops IH]; intros st Hst; [exact Hst|].
  cbn [lxmf_run fold_left]. apply IH. apply lxmf_step_routed. exact Hst.
Qed.

Lemma send_message_with_router (message : value) (w : W) (self : LXMFManager.t) :
  truthy (LXMFManager.router self) = true ->
  exists rest,
    events_of (LXMFManager.send_message rt message w self)
      = Called (handle_outbound_of (LXMFManager.router self) message) :: rest.
Proof.
  intros Hrouter. unfold LXMFManager.send_message. py_run. rewrite Hrouter. py_run.
  fold (handle_outbound_of (LXMFManager.router self) message).
  destruct (invoke rt _ w) as [[v|e] w1]; py_run; eexists; reflexivity.
Qed.

(** X10.  A manager that has a delivery destination has a router: after
    any sequence of [initialize], [create_message], [send_message] and
    [announce] calls on a new manager, whatever the libraries answer, a
    registered destination implies a router, so that [send_message] hands
    the message to [handle_outbound]. *)
Theorem destination_implies_router (ops : list lxmf_op) (w : W) (message : value) :
  let st := lxmf_run rt ops (w, LXMFManager.init) in
  truthy (LXMFManager.destination (snd st)) = true ->
  truthy (LXMFManager.router (snd st)) = true /\
  exists rest,
    events_of (LXMFManager.send_message rt message (fst st) (snd st))
      = Called (handle_outbound_of (LXMFManager.router (snd st)) message) :: rest.
Proof.
  intros st Hdest.
  assert (Hrouter : truthy (LXMFManager.router (snd st)) = true).
  { apply (lxmf_run_routed ops (w, LXMFManager.init)); [|exact Hdest].
    intros H. cbn in H. discriminate. }
  split; [exact Hrouter|]. apply send_message_with_router. exact Hrouter.
Qed.

(** X11.  A message that [create_message] returns was built the way the
    method says: the manager has a destination, the address is 16 bytes
    (after reading hex text), the message was constructed from an outbound
    destination, the manager's own destination as source, the content and
    the title (the empty string for a missing title) with the direct
    delivery method, [try_propagation_on_fail] was set on it, and [fields]
    was set when fields were given. *)
Theorem create_message_result (destination_hash : hash_arg) (content title fields m : value)
    (w : W) (self : LXMFManager.t) :
  let r := LXMFManager.create_message rt destination_hash content title fields w self in
  value_of r = Returns m ->
  is_none m = false ->
  truthy (LXMFManager.destination self) = true /\
  (exists h, address_of destination_hash = Some h /\ length h = 16) /\
  (exists lxmf_destination,
     In (Constructed (lxmessage_of lxmf_destination (LXMFManager.destination self)
                        content title))
        (events_of r)) /\
  In (Called (SetAttr m "try_propagation_on_fail" (VBool true))) (events_of r) /\
  (truthy fields = true -> In (Called (SetAttr m "fields" fields)) (events_of r)).
Proof.
  cbv zeta. unfold LXMFManager.create_message, LXMFManager.check_length,
    LXMFManager.build_message, address_of, lxmessage_of.
  replace (TRUNCATED_HASHLENGTH / 8) with 16 by reflexivity.
  py_run.
  destruct (truthy (LXMFManager.destination self)) eqn:Hdest; py_run;
    [|intros [= <-]; discriminate].
  destruct destination_hash as [s|h]; [destruct (bytes_fromhex s) as [h|]|]; py_run;
    try (intros [= <-]; discriminate).
  all: destruct (Nat.eqb_spec (length h) 16) as [Hlen|Hlen]; py_run;
    try (intros [= <-]; discriminate).
  all: py_auto; try (intros [= <-]; discriminate); try discriminate.
  all: intros Hv _; injection Hv as Hv; subst m; split; [reflexivity|]; split; [eauto|];
    split; [eexists; cbn; eauto 10|]; split; [cbn; auto 10|];
    intros Hf; cbn; try discriminate; auto 10.
Qed.

(** X12.  An address given as the hex text of [b] is handled exactly as
    the bytes [b] themselves: the same result, the same calls, the same
    diagnostics. *)
Theorem create_message_hex_text (b : bytes) (content title fields : value) (w : W)
    (self : LXMFManager.t) :
  LXMFManager.create_message rt (HashStr (bytes_hex b)) content title fields w self =
  LXMFManager.create_message rt (HashBytes b) content title fields w self.
Proof.
  unfold LXMFManager.create_message. rewrite fromhex_hex. reflexivity.
Qed.

(** X13.  Text that is not hex is rejected before any library is asked:
    [create_message] prints the text back and returns [None]. *)
Theorem create_message_bad_hex (s : string) (content title fields : value) (w : W)
    (self : LXMFManager.t) :
  truthy (LXMFManager.destination self) = true ->
  bytes_fromhex s = None ->
  LXMFManager.create_message rt (HashStr s) content title fields w self =
    Result (Returns VNone) w self [Stdout ("Invalid hash format: " ++ s)].
Proof.
  intros Hdest Hbad. unfold LXMFManager.create_message. py_run.
  rewrite Hdest. py_run. rewrite Hbad. reflexivity.
Qed.

(** X14.  No method of the messaging manager lets an exception of a
    library reach the caller, and only [initialize] changes the manager:
    [create_message], [send_message] and [announce] leave every field as
    it was. *)
Theorem messaging_never_raises :
  (forall destination_hash content title fields,
     keeps_self (LXMFManager.create_message rt destination_hash content title fields) /\
     returns (LXMFManager.create_message rt destination_hash content title fields)) /\
  (forall message,
     keeps_self (LXMFManager.send_message rt message) /\
     returns (LXMFManager.send_message rt message)) /\
  (keeps_self (LXMFManager.announce rt) /\ returns (LXMFManager.announce rt)) /\
  (forall identity_arg destination_name storage_path_arg display_name,
     returns (LXMFManager.initialize rt identity_arg destination_name storage_path_arg
                display_name)).
Proof.
  split; [|split; [|split]].
  - intros destination_hash content title fields. split.
    + apply keeps_create_message.
    + apply returns_try_any. intros e. apply returns_print_ret.
  - intros message. split.
    + apply keeps_send_message.
    + apply returns_try_any. intros e. apply returns_print_ret.
  - split.
    + apply keeps_announce.
    + apply returns_try_any. intros e. apply returns_print_ret.
  - intros identity_arg destination_name storage_path_arg display_name.
    apply returns_try_any. intros e. apply returns_print_ret.
Qed.

End MessageFactsMore.

Lemma initialize_postcondition_witness :
  truthy (LXMFManager.router
            (self_of (LXMFManager.initialize (scripted quiet) (VObj 0) "rns_flet_app"
                        (Some "/tmp/lxmf_storage") None 1 LXMFManager.init))) = true /\
  truthy (LXMFManager.destination
            (self_of (LXMFManager.initialize (scripted quiet) (VObj 0) "rns_flet_app"
                        (Some "/tmp/lxmf_storage") None 1 LXMFManager.init))) = true /\
  LXMFManager.identity
    (self_of (LXMFManager.initialize (scripted quiet) (VObj 0) "rns_flet_app"
                (Some "/tmp/lxmf_storage") None 1 LXMFManager.init)) = VObj 0.
Proof.
  exact (proj1 (initialize_postcondition (scripted quiet) (VObj 0) "rns_flet_app"
                  (Some "/tmp/lxmf_storage") None 1 LXMFManager.init) eq_refl).
Defined.

Lemma destination_implies_router_witness :
  truthy (LXMFManager.router
            (snd (lxmf_run (scripted quiet)
                    [OpInitialize (VObj 0) "rns_flet_app" (Some "/tmp/lxmf_storage") None;
                     OpAnnounce]
                    (1, LXMFManager.init)))) = true /\
  exists rest,
    events_of (LXMFManager.send_message (scripted quiet) (VObj 7) 3
                 (snd (lxmf_run (scripted quiet)
                         [OpInitialize (VObj 0) "rns_flet_app" (Some "/tmp/lxmf_storage") None;
                          OpAnnounce]
                         (1, LXMFManager.init))))
      = Called (handle_outbound_of (VObj 1) (VObj 7)) :: rest.
Proof.
  exact (destination_implies_router (scripted quiet)
           [OpInitialize (VObj 0) "rns_flet_app" (Some "/tmp/lxmf_storage") None; OpAnnounce]
           1 (VObj 7) eq_refl).
Defined.

Lemma create_message_result_witness :
  value_of (LXMFManager.create_message (scripted peer_known) (HashBytes zero_hash)
              (VStr "hello") VNone VNone 0 registered) = Returns (VObj 1) /\
  In (Called (SetAttr (VObj 1) "try_propagation_on_fail" (VBool true)))
     (events_of (LXMFManager.create_message (scripted peer_known) (HashBytes zero_hash)
                   (VStr "hello") VNone VNone 0 registered)).
Proof.
  split; [reflexivity|].
  exact (proj1 (proj2 (proj2 (proj2
           (create_message_result (scripted peer_known) (HashBytes zero_hash) (VStr "hello")
              VNone VNone (VObj 1) 0 registered eq_refl eq_refl))))).
Defined.

Lemma create_message_bad_hex_witness :
  LXMFManager.create_message (scripted quiet) (HashStr "zz") (VStr "hello") VNone VNone 0
    registered
    = Result (Returns VNone) 0 registered [Stdout "Invalid hash format: zz"].
Proof.
  exact (create_message_bad_hex (scripted quiet) "zz" (VStr "hello") VNone VNone 0 registered
           eq_refl eq_refl).
Defined.

(** ** lxst.py, continued *)

Lemma pipeline_key_inj (n m : nat) : pipeline_key n = pipeline_key m -> n = m.
Proof.
  unfold pipeline_key. intros H. apply (inj pretty).
  apply (inj (String.app "pipeline_")). exact H.
Qed.

Section PipelineFactsMore.
Context {W : Type} (rt : Runtime W).

(** X15.  The three creators register exactly what they return: a call
    either returns [None] and leaves the manager as it was, or returns a new
    object and has added that object, and nothing else, to its registry
    under the key made of the object's id. *)
Theorem creators_register_what_they_return :
  (forall kind kwargs w self,
     let r := LXSTManager.create_audio_source rt kind kwargs w self in
     (value_of r = Returns VNone /\ self_of r = self) \/
     (exists n, value_of r = Returns (VObj n) /\
        self_of r = LXSTManager.set_sources
                      (<[source_key n := VObj n]> (LXSTManager.sources self)) self)) /\
  (forall kind kwargs w self,
     let r := LXSTManager.create_audio_sink rt kind kwargs w self in
     (value_of r = Returns VNone /\ self_of r = self) \/
     (exists n, value_of r = Returns (VObj n) /\
        self_of r = LXSTManager.set_sinks
                      (<[sink_key n := VObj n]> (LXSTManager.sinks self)) self)) /\
  (forall source sink kwargs w self,
     let r := LXSTManager.create_pipeline rt source sink kwargs w self in
     (value_of r = Returns VNone /\ self_of r = self) \/
     (exists n, value_of r = Returns (VObj n) /\
        self_of r = LXSTManager.set_pipelines
                      (<[pipeline_key n := VObj n]> (LXSTManager.pipelines self)) self)).
Proof.
  split; [|split].
  - intros kind kwargs w self. cbv zeta. unfold LXSTManager.create_audio_source.
    destruct (kind =? "local"); [|destruct (kind =? "remote"); [|destruct (kind =? "file")]];
      py_auto; cbn [py_id]; eauto.
  - intros kind kwargs w self. cbv zeta. unfold LXSTManager.create_audio_sink.
    destruct (kind =? "local"); [|destruct (kind =? "remote"); [|destruct (kind =? "null")]];
      py_auto; cbn [py_id]; eauto.
  - intros source sink kwargs w self. cbv zeta. unfold LXSTManager.create_pipeline.
    py_auto; cbn [py_id]; eauto.
Qed.

Lemma create_pipeline_run (source sink : value) (kwargs : list (string * value))
    (w w1 : W) (self : LXSTManager.t) (n : nat) :
  construct rt (pipeline_of source sink kwargs) w = (Returns n, w1) ->
  LXSTManager.create_pipeline rt source sink kwargs w self =
    Result (Returns (VObj n)) w1
      (LXSTManager.set_pipelines (<[pipeline_key n := VObj n]> (LXSTManager.pipelines self))
         self)
      [Constructed (pipeline_of source sink kwargs)].
Proof.
  intros Hnew. unfold LXSTManager.create_pipeline, pipeline_of in *. py_run.
  rewrite Hnew. py_run. reflexivity.
Qed.

(** X16.  Creating a pipeline registers it under its own key and
    disturbs no other registration: the key of any other object maps to
    what it mapped to before. *)
Theorem create_pipeline_keeps_other_pipelines (source sink : value)
    (kwargs : list (string * value)) (w w1 : W) (self : LXSTManager.t) (n m : nat) :
  construct rt (pipeline_of source sink kwargs) w = (Returns n, w1) ->
  m <> n ->
  let r := LXSTManager.create_pipeline rt source sink kwargs w self in
  LXSTManager.pipelines (self_of r) !! pipeline_key n = Some (VObj n) /\
  LXSTManager.pipelines (self_of r) !! pipeline_key m
    = LXSTManager.pipelines self !! pipeline_key m.
Proof.
  intros Hnew Hne r. subst r. rewrite (create_pipeline_run _ _ _ _ _ _ _ Hnew).
  cbn [self_of LXSTManager.pipelines LXSTManager.set_pipelines]. split.
  - apply lookup_insert_eq.
  - apply lookup_insert_ne. intros Heq. apply Hne. symmetry.
    apply pipeline_key_inj. exact Heq.
Qed.

(** X17.  Closing a pipeline that was just created, and not started,
    under the id its creation registered gives back the manager as it was
    before the creation, without calling [stop]. *)
Theorem create_then_close_restores (source sink : value) (kwargs : list (string * value))
    (w w1 : W) (self : LXSTManager.t) (n : nat) :
  construct rt (pipeline_of source sink kwargs) w = (Returns n, w1) ->
  LXSTManager.pipelines self !! pipeline_key n = None ->
  LXSTManager.is_active rt w1 (VObj n) = false ->
  let created := LXSTManager.create_pipeline rt source sink kwargs w self in
  LXSTManager.close_pipeline rt (pipeline_key n) (world_of created) (self_of created)
    = Result (Returns true) w1 self [].
Proof.
  intros Hnew Hfresh Hidle created. subst created.
  rewrite (create_pipeline_run _ _ _ _ _ _ _ Hnew). cbn [world_of self_of].
  rewrite (close_pipeline_registered rt (pipeline_key n) (VObj n)).
  2:{ apply lookup_insert_eq. }
  unfold LXSTManager.is_active in Hidle. rewrite Hidle.
  cbn [LXSTManager.pipelines LXSTManager.set_pipelines].
  rewrite delete_insert_id by exact Hfresh.
  destruct self; reflexivity.
Qed.

(** X18.  [close_pipeline] touches one registration only: whatever it
    returns, every other pipeline id maps to what it mapped to before, and
    the sources, the sinks, the identity and the destination are as they
    were. *)
Theorem close_pipeline_frame (pipeline_id other : string) (w : W) (self : LXSTManager.t) :
  let r := LXSTManager.close_pipeline rt pipeline_id w self in
  (other <> pipeline_id ->
   LXSTManager.pipelines (self_of r) !! other = LXSTManager.pipelines self !! other) /\
  LXSTManager.sources (self_of r) = LXSTManager.sources self /\
  LXSTManager.sinks (self_of r) = LXSTManager.sinks self /\
  LXSTManager.identity (self_of r) = LXSTManager.identity self /\
  LXSTManager.destination (self_of r) = LXSTManager.destination self.
Proof.
  cbv zeta.
  destruct (LXSTManager.pipelines self !! pipeline_id) as [pipeline|] eqn:Hp.
  - rewrite (close_pipeline_registered rt _ _ _ _ Hp).
    destruct (match getattr rt w pipeline "active" with
              | Some a => truthy a | None => false end);
      [destruct (invoke rt (stop_of pipeline) w) as [[v|e] w1]|];
      cbn [self_of LXSTManager.pipelines LXSTManager.sources LXSTManager.sinks
           LXSTManager.identity LXSTManager.destination LXSTManager.set_pipelines];
      repeat split; auto; intros Hne; apply lookup_delete_ne; auto.
  - rewrite (close_pipeline_unknown rt _ _ _ Hp). repeat split; auto.
Qed.

(** X19.  [close_pipeline] stops a pipeline only when it is active: a
    registered pipeline whose [active] attribute is missing or false is
    removed without any call; an active one is stopped first and removed
    when [stop] returns. *)
Theorem close_pipeline_stops_only_active (pipeline_id : string) (pipeline : value) (w : W)
    (self : LXSTManager.t) :
  LXSTManager.pipelines self !! pipeline_id = Some pipeline ->
  (LXSTManager.is_active rt w pipeline = false ->
   LXSTManager.close_pipeline rt pipeline_id w self =
     Result (Returns true) w
       (LXSTManager.set_pipelines (delete pipeline_id (LXSTManager.pipelines self)) self) []) /\
  (forall (v : value) (w1 : W),
     LXSTManager.is_active rt w pipeline = true ->
     invoke rt (stop_of pipeline) w = (Returns v, w1) ->
     LXSTManager.close_pipeline rt pipeline_id w self =
       Result (Returns true) w1
         (LXSTManager.set_pipelines (delete pipeline_id (LXSTManager.pipelines self)) self)
         [Called (stop_of pipeline)]).
Proof.
  intros Hp. unfold LXSTManager.is_active. split.
  - intros Hidle. rewrite (close_pipeline_registered rt _ _ _ _ Hp), Hidle. reflexivity.
  - intros v w1 Hactive Hstop.
    rewrite (close_pipeline_registered rt _ _ _ _ Hp), Hactive, Hstop. reflexivity.
Qed.

(** X20.  [initialize] of the streaming manager stores the identity
    before it creates the destination, so the identity is the one passed in
    whether the call returns [True] or [False]; after [True] the destination
    is the new object, after [False] it is the one the manager had; the
    registered pipelines are never touched. *)
Theorem lxst_initialize_sets_identity_first (identity_arg : value) (destination_name : string)
    (w : W) (self : LXSTManager.t) :
  let r := LXSTManager.initialize rt identity_arg destination_name w self in
  LXSTManager.identity (self_of r) = identity_arg /\
  LXSTManager.pipelines (self_of r) = LXSTManager.pipelines self /\
  ((exists d, value_of r = Returns true /\ LXSTManager.destination (self_of r) = VObj d) \/
   (value_of r = Returns false /\
    LXSTManager.destination (self_of r) = LXSTManager.destination self)).
Proof.
  cbv zeta. unfold LXSTManager.initialize. py_auto;
    cbn [LXSTManager.identity LXSTManager.pipelines LXSTManager.destination
         LXSTManager.set_identity LXSTManager.set_destination self_of value_of];
    (split; [reflexivity|]); (split; [reflexivity|]);
    first [left; eexists; split; reflexivity | right; split; reflexivity].
Qed.

Lemma list_active_pipelines_run (w : W) (self : LXSTManager.t) :
  LXSTManager.list_active_pipelines rt w self =
    Result (Returns (map fst (filter (fun entry => LXSTManager.is_active rt w (snd entry) = true)
                                (map_to_list (LXSTManager.pipelines self)))))
           w self [].
Proof. reflexivity. Qed.

Lemma listed_iff (pipeline_id : string) (w : W) (self : LXSTManager.t) :
  pipeline_id ∈ map fst (filter (fun entry => LXSTManager.is_active rt w (snd entry) = true)
                          (map_to_list (LXSTManager.pipelines self)))
  <-> exists pipeline,
        LXSTManager.pipelines self !! pipeline_id = Some pipeline /\
        LXSTManager.is_active rt w pipeline = true.
Proof.
  rewrite list_elem_of_fmap. split.
  - intros ([k p] & -> & Hin). apply list_elem_of_filter in Hin as [Hactive Hin].
    apply elem_of_map_to_list in Hin. exists p. auto.
  - intros (p & Hp & Hactive). exists (pipeline_id, p). split; [reflexivity|].
    apply list_elem_of_filter. split; [exact Hactive|].
    apply elem_of_map_to_list. exact Hp.
Qed.

(** X21.  [list_active_pipelines] calls nothing and changes nothing; the
    list it returns has no id twice, and an id is in it exactly when it is
    registered to a pipeline whose [active] attribute is present and true. *)
Theorem list_active_pipelines_lists (pipeline_id : string) (w : W) (self : LXSTManager.t) :
  exists ids,
    LXSTManager.list_active_pipelines rt w self = Result (Returns ids) w self [] /\
    NoDup ids /\
    (pipeline_id ∈ ids <->
     exists pipeline,
       LXSTManager.pipelines self !! pipeline_id = Some pipeline /\
       LXSTManager.is_active rt w pipeline = true).
Proof.
  eexists. split; [apply list_active_pipelines_run|]. split.
  - eapply sublist_NoDup; [apply (NoDup_fst_map_to_list (LXSTManager.pipelines self))|].
    apply fmap_sublist, sublist_filter.
  - apply listed_iff.
Qed.

(** X22.  A pipeline that [close_pipeline] reported closed is not listed
    as active afterwards, whatever its [active] attribute says then. *)
Theorem closed_pipeline_is_not_listed (pipeline_id : string) (w : W) (self : LXSTManager.t)
    (ids : list string) :
  let closed := LXSTManager.close_pipeline rt pipeline_id w self in
  value_of closed = Returns true ->
  value_of (LXSTManager.list_active_pipelines rt (world_of closed) (self_of closed))
    = Returns ids ->
  pipeline_id ∉ ids.
Proof.
  intros closed Hclosed Hids Hin. subst closed.
  rewrite list_active_pipelines_run in Hids.
  cbn [value_of] in Hids. injection Hids as <-.
  apply listed_iff in Hin as (p & Hp & _).
  rewrite (close_pipeline_true_removes rt pipeline_id w self Hclosed) in Hp. discriminate.
Qed.

(** X23.  The registries change only through the creators and
    [close_pipeline]: [start_pipeline], [stop_pipeline], [create_mixer],
    [create_telephone], [announce_destination] and [list_active_pipelines]
    leave the manager as it was; a mixer or a telephone is returned without
    being registered.  The five that call a library never let its
    exception reach the caller. *)
Theorem registries_change_only_by_create_and_close :
  (forall pipeline, keeps_self (LXSTManager.start_pipeline rt pipeline) /\
                    returns (LXSTManager.start_pipeline rt pipeline)) /\
  (forall pipeline, keeps_self (LXSTManager.stop_pipeline rt pipeline) /\
                    returns (LXSTManager.stop_pipeline rt pipeline)) /\
  (forall kwargs, keeps_self (LXSTManager.create_mixer rt kwargs) /\
                  returns (LXSTManager.create_mixer rt kwargs)) /\
  (forall destination_hash kwargs,
     keeps_self (LXSTManager.create_telephone rt destination_hash kwargs) /\
     returns (LXSTManager.create_telephone rt destination_hash kwargs)) /\
  (keeps_self (LXSTManager.announce_destination rt) /\
   returns (LXSTManager.announce_destination rt)) /\
  keeps_self (LXSTManager.list_active_pipelines rt).
Proof.
  split; [|split; [|split; [|split; [|split]]]].
  - intros pipeline. split.
    + unfold LXSTManager.start_pipeline. auto 10 with keeps.
    + apply returns_try_any. intros e. apply returns_print_ret.
  - intros pipeline. split.
    + unfold LXSTManager.stop_pipeline. auto 10 with keeps.
    + apply returns_try_any. intros e. apply returns_print_ret.
  - intros kwargs. split.
    + unfold LXSTManager.create_mixer. auto 10 with keeps.
    + apply returns_try_any. intros e. apply returns_print_ret.
  - intros destination_hash kwargs. split.
    + unfold LXSTManager.create_telephone. auto 10 with keeps.
    + apply returns_try_any. intros e. apply returns_print_ret.
  - split.
    + unfold LXSTManager.announce_destination. auto 10 with keeps.
    + apply returns_try_any. intros e. apply returns_print_ret.
  - intros w s. reflexivity.
Qed.

End PipelineFactsMore.

Lemma create_pipeline_keeps_other_pipelines_witness :
  LXSTManager.pipelines
    (self_of (LXSTManager.create_pipeline (scripted quiet) (VObj 1) (VObj 2) [] 3 one_pipeline))
    !! pipeline_key 3 = Some (VObj 3) /\
  LXSTManager.pipelines
    (self_of (LXSTManager.create_pipeline (scripted quiet) (VObj 1) (VObj 2) [] 3 one_pipeline))
    !! pipeline_key 7 = LXSTManager.pipelines one_pipeline !! pipeline_key 7.
Proof.
  apply (create_pipeline_keeps_other_pipelines (scripted quiet) (VObj 1) (VObj 2) [] 3 4
           one_pipeline 3 7); [reflexivity | lia].
Defined.

Lemma create_then_close_restores_witness :
  LXSTManager.close_pipeline (scripted quiet) (pipeline_key 3) 4
    (self_of (LXSTManager.create_pipeline (scripted quiet) (VObj 1) (VObj 2) [] 3
                LXSTManager.init))
    = Result (Returns true) 4 LXSTManager.init [].
Proof.
  apply (create_then_close_restores (scripted quiet) (VObj 1) (VObj 2) [] 3 4
           LXSTManager.init 3); reflexivity.
Defined.

Lemma close_pipeline_stops_only_active_witness :
  LXSTManager.close_pipeline (scripted quiet) "pipeline_7" 0 one_pipeline
    = Result (Returns true) 0
        (LXSTManager.set_pipelines (delete "pipeline_7" (LXSTManager.pipelines one_pipeline))
           one_pipeline) [] /\
  LXSTManager.close_pipeline (scripted playing) "pipeline_7" 0 one_pipeline
    = Result (Returns true) 0
        (LXSTManager.set_pipelines (delete "pipeline_7" (LXSTManager.pipelines one_pipeline))
           one_pipeline) [Called (stop_of (VObj 7))].
Proof.
  split.
  - apply (proj1 (close_pipeline_stops_only_active (scripted quiet) "pipeline_7" (VObj 7) 0
                    one_pipeline eq_refl)).
    reflexivity.
  - apply (proj2 (close_pipeline_stops_only_active (scripted playing) "pipeline_7" (VObj 7) 0
                    one_pipeline eq_refl) VNone 0); reflexivity.
Defined.

Lemma closed_pipeline_is_not_listed_witness :
  value_of (LXSTManager.close_pipeline (scripted playing) "pipeline_7" 0 one_pipeline)
    = Returns true /\
  "pipeline_7" ∉ ([] : list string).
Proof.
  split; [reflexivity|].
  apply (closed_pipeline_is_not_listed (scripted playing) "pipeline_7" 0 one_pipeline []).
  - reflexivity.
  - vm_compute. reflexivity.
Defined.

(** ** app.py, continued *)

Section CallbackFactsMore.
Context {W : Type} (rt : Runtime W).




Lemma probe_run (obj : value) (name : string) (w : W) (s : App.t) :
  App.probe rt obj name w s = Result (Returns (getattr rt w obj name)) w s [].
Proof.
  unfold App.probe. py_run.
  destruct (getattr rt w obj name) eqn:Hv; py_run; rewrite ?Hv; reflexivity.
Qed.

Lemma describe_sender_bytes (b : bytes) (w : W) (s : App.t) :
  b <> [] ->
  exists name,
    value_of (App.describe_sender rt (VBytes b) w s) = Returns (name, VStr (bytes_hex b)).
Proof.
  intros Hb. unfold App.describe_sender.
  destruct b as [|x b]; [contradiction|]. cbn [truthy length Nat.eqb negb].
  unfold bind at 1.
  destruct (returns_resolve rt (VBytes (x :: b)) w s) as [name Hname].
  destruct (App.resolve_sender_name rt (VBytes (x :: b)) w s) as [o w1 s1 ev1].
  cbn in Hname. subst o. rewrite value_after. exists name. reflexivity.
Qed.

(** X26.  A message without sender (no [source_hash] and no [source], or
    an empty one) is recorded as from "Anonymous" with the hash text
    "Unknown"; with no page attached the callback asks no library and
    prints nothing, and the record carries the decoded title and content. *)
Theorem callback_without_sender (message : value) (w : W) (self : App.t) :
  truthy (sender_of rt w message) = false ->
  truthy (App.page_ref self) = false ->
  App.message_callback rt message w self =
    Result (Returns tt) w
      (App.set_messages_list
         (App.MsgData (VStr "Anonymous") (VStr "Unknown") (sender_of rt w message)
            (App.text_of rt (getattr rt w message "title"))
            (App.text_of rt (getattr rt w message "content")) None
          :: App.messages_list self) self)
      [].
Proof.
  intros Hsender Hpage. unfold App.message_callback.
  unfold bind at 1. rewrite read_sender_run. cbn [after app].
  unfold App.describe_sender. rewrite Hsender.
  unfold bind at 1. cbn [ret after app].
  unfold bind at 1. rewrite probe_run. cbn [after app].
  unfold bind at 1. rewrite probe_run. cbn [after app].
  py_run. cbn [App.page_ref App.set_messages_list]. rewrite Hpage. reflexivity.
Qed.

(** X27.  For a message whose sender address is non-empty bytes, the
    record put at the head of [messages_list] carries those bytes
    unchanged and their hex text, whatever the name lookup and the page
    do. *)
Theorem callback_records_hex_of_sender (message : value) (b : bytes) (w : W) (self : App.t) :
  sender_of rt w message = VBytes b ->
  b <> [] ->
  exists msg,
    App.messages_list (self_of (App.message_callback rt message w self))
      = msg :: App.messages_list self /\
    App.sender_hash msg = VStr (bytes_hex b) /\
    App.sender_hash_bytes msg = VBytes b.
Proof.
  intros Hsender Hb. unfold App.message_callback.
  unfold bind at 1. rewrite read_sender_run, self_after, Hsender.
  destruct (describe_sender_bytes b w self Hb) as [name Hname].
  match goal with |- context [bind (App.describe_sender rt (VBytes b)) ?k w self] =>
    destruct (bind_self_value (App.describe_sender rt (VBytes b)) k w self _
                (keeps_describe rt _) Hname) as [w2 ->]
  end.
  unfold bind at 1. rewrite probe_run, self_after.
  unfold bind at 1. rewrite probe_run, self_after.
  unfold bind at 1, modify_self. rewrite self_after, (keeps_notify rt).
  eexists. split; [reflexivity|]. split; reflexivity.
Qed.

End CallbackFactsMore.



Lemma callback_without_sender_witness :
  App.message_callback (scripted quiet) (VObj 4) 0 (App.Mk [earlier] VNone)
    = Result (Returns tt) 0
        (App.Mk [App.MsgData (VStr "Anonymous") (VStr "Unknown") VNone "" "" None; earlier]
           VNone)
        [].
Proof.
  exact (callback_without_sender (scripted quiet) (VObj 4) 0 (App.Mk [earlier] VNone)
           eq_refl eq_refl).
Defined.

Lemma callback_records_hex_of_sender_witness :
  exists msg,
    App.messages_list (self_of (App.message_callback (scripted inbound) (VObj 4) 0
                                  (App.Mk [earlier] VNone)))
      = msg :: [earlier] /\
    App.sender_hash msg = VStr (bytes_hex (repeat xab 16)) /\
    App.sender_hash_bytes msg = VBytes (repeat xab 16).
Proof.
  apply (callback_records_hex_of_sender (scripted inbound) (VObj 4) (repeat xab 16) 0
           (App.Mk [earlier] VNone)); [reflexivity | discriminate].
Defined.
